(** * AutoBrain orchestrator: the routing graph of [packages/orchestrator/graph.py]

    A shallow embedding of the orchestration graph (router, retrieve,
    synthesize and action nodes, the batch entry point [run_graph] and the
    streaming entry point [run_graph_stream]) together with the properties
    of its specification.

    Modelling choices, all local to this file:
    - Python [str] values are [string]s over the code points below 256; on
      that range [py_isspace] and [py_lower] are the ones of CPython's
      [str.isspace] and [str.lower].
    - The two vendor SDK calls are oracles (Section variables) that either
      return a text or raise an exception carrying a message.
    - A run is a computation in a writer monad with exceptions: the log
      records every node that ran (with the state it left) and every event
      the streaming generator yielded, in program order.
    - [graph.ainvoke] returns a dict of the state's values, not a
      [GraphState]: reading [state.answer] off it raises [AttributeError].
    - The [score] floats are only ever copied; they are kept as the decimal
      fractions written in the source.
    - The handlers of [apps/api/main.py] take the store (the two
      module-level dicts) as an argument and return the new one; what they
      draw from [uuid] and the clock is an argument too. *)

From Stdlib Require Import Ascii QArith.
From stdpp Require Import base option list strings pretty gmap.

(** ** Python string primitives *)

Module Py.

Definition code (c : ascii) : N := N_of_ascii c.

(** [str.isspace] for one code point: TAB..CR, FS..US, SPACE, NEL, NBSP. *)
Definition py_isspace (c : ascii) : bool :=
  let n := code c in
  ((9 <=? n) && (n <=? 13) || (28 <=? n) && (n <=? 32)
   || (n =? 133) || (n =? 160))%N.

(** [str.lower] for one code point: A..Z and the Latin-1 capitals
    (all of 0xC0..0xDE but the multiplication sign 0xD7). *)
Definition py_lower (c : ascii) : ascii :=
  let n := code c in
  if ((65 <=? n) && (n <=? 90)
      || (192 <=? n) && (n <=? 222) && negb (n =? 215))%N
  then ascii_of_N (n + 32) else c.

Fixpoint lower (s : string) : string :=
  match s with
  | EmptyString => EmptyString
  | String c s' => String (py_lower c) (lower s')
  end.

Fixpoint lstrip (s : string) : string :=
  match s with
  | EmptyString => EmptyString
  | String c s' => if py_isspace c then lstrip s' else s
  end.

Definition rstrip (s : string) : string := String.rev (lstrip (String.rev s)).

Definition strip (s : string) : string := rstrip (lstrip s).

(** [s.isspace()] or [s == ""]: nothing but whitespace. *)
Fixpoint blank (s : string) : bool :=
  match s with
  | EmptyString => true
  | String c s' => py_isspace c && blank s'
  end.

(** A word as [str.split()] produces them: non-empty, no whitespace. *)
Fixpoint spaceless (s : string) : bool :=
  match s with
  | EmptyString => true
  | String c s' => negb (py_isspace c) && spaceless s'
  end.

Definition is_word (w : string) : Prop := w <> "" /\ spaceless w = true.

(** The word scanned so far is closed at a whitespace or at the end. *)
Definition flush (cur : string) : list string :=
  match cur with EmptyString => [] | _ => [cur] end.

(** [str.split()] without arguments: a left-to-right scan that cuts at
    runs of whitespace and drops the empty pieces. *)
Fixpoint split_go (cur s : string) : list string :=
  match s with
  | EmptyString => flush cur
  | String c s' =>
      if py_isspace c then flush cur ++ split_go "" s'
      else split_go (cur +:+ String c "") s'
  end.

Definition split (s : string) : list string := split_go "" s.

(** [sep.join(ws)] *)
Definition join (sep : string) (ws : list string) : string :=
  String.concat sep ws.

(** [range(start, stop, step)] for a positive [step], with CPython's
    length [(stop - start + step - 1) // step]. *)
Definition range (start stop step : nat) : list nat :=
  (fun k => start + k * step) <$> seq 0 ((stop - start + step - 1) / step).

(** [xs[i:j]] for [0 <= i <= j]. *)
Definition slice {A} (xs : list A) (i j : nat) : list A :=
  take (j - i) (drop i xs).

(** [x in xs] on strings. *)
Definition In_b (x : string) (xs : list string) : bool :=
  bool_decide (x ∈ xs).

End Py.


(** ** Data model *)

(** A retrieved document: the dict with keys [id], [content], [source],
    [score]. *)
Record ScoredDocument := {
  doc_id : string;
  doc_content : string;
  doc_source : string;
  doc_score : Q
}.

(** A citation: the dict with keys [id], [source], [score]. *)
Record SourceRef := {
  src_id : string;
  src_source : string;
  src_score : Q
}.

(** [@dataclass GraphState]; after [__post_init__] none of the container
    fields is [None]. *)
Record GraphState := {
  org_id : string;
  conversation_id : string;
  query : string;
  route : string;
  retrieved_docs : list ScoredDocument;
  answer : string;
  sources : list SourceRef;
  metadata : gmap string string;
  tools : list string
}.

(** [GraphState(org_id=..., conversation_id=..., query=..., tools=...)] *)
Definition GraphState_init (org conv q : string) (tls : list string)
  : GraphState :=
  {| org_id := org; conversation_id := conv; query := q; route := "";
     retrieved_docs := []; answer := ""; sources := []; metadata := ∅;
     tools := tls |}.

(** Attribute assignments [state.f = v] and [state.metadata[k] = v]. *)
Definition set_route (r : string) (st : GraphState) : GraphState :=
  {| org_id := org_id st; conversation_id := conversation_id st;
     query := query st; route := r; retrieved_docs := retrieved_docs st;
     answer := answer st; sources := sources st; metadata := metadata st;
     tools := tools st |}.

Definition set_retrieved_docs (ds : list ScoredDocument) (st : GraphState)
  : GraphState :=
  {| org_id := org_id st; conversation_id := conversation_id st;
     query := query st; route := route st; retrieved_docs := ds;
     answer := answer st; sources := sources st; metadata := metadata st;
     tools := tools st |}.

Definition set_answer (a : string) (st : GraphState) : GraphState :=
  {| org_id := org_id st; conversation_id := conversation_id st;
     query := query st; route := route st;
     retrieved_docs := retrieved_docs st; answer := a;
     sources := sources st; metadata := metadata st; tools := tools st |}.

Definition set_sources (ss : list SourceRef) (st : GraphState) : GraphState :=
  {| org_id := org_id st; conversation_id := conversation_id st;
     query := query st; route := route st;
     retrieved_docs := retrieved_docs st; answer := answer st;
     sources := ss; metadata := metadata st; tools := tools st |}.

Definition set_metadata_item (k v : string) (st : GraphState) : GraphState :=
  {| org_id := org_id st; conversation_id := conversation_id st;
     query := query st; route := route st;
     retrieved_docs := retrieved_docs st; answer := answer st;
     sources := sources st; metadata := <[k := v]> (metadata st);
     tools := tools st |}.

(** The caller's [ctx] dict: [org_id] and [conversation_id] are read with
    [ctx[...]], [tools] with [ctx.get("tools", [])]. *)
Record Ctx := {
  ctx_org_id : string;
  ctx_conversation_id : string;
  ctx_tools : option (list string)
}.

(** What [run_graph] returns: the dict with keys [answer], [sources],
    [metadata]. *)
Record Result := {
  res_answer : string;
  res_sources : list SourceRef;
  res_metadata : gmap string string
}.

(** A streamed event: the dict with keys [type], [content] and, on the last
    one, [metadata]. [content] is a text or the citation list. *)
Inductive Content :=
| Text (s : string)
| Sources (ss : list SourceRef).

Record Event := {
  ev_type : string;
  ev_content : Content;
  ev_metadata : option (gmap string string)
}.

(** ** Runs: a log of what happened, and exceptions *)

Inductive exn :=
| GraphRecursionError
| KeyError (key : string)
| AttributeError (name : string).

Inductive obs :=
| Ran (node : string) (st : GraphState)
| Yield (e : Event).

Definition M (A : Type) : Type := (list obs * (exn + A))%type.

#[global] Instance M_ret : MRet M := fun A a => ([], inr a).

#[global] Instance M_bind : MBind M := fun A B f m =>
  match m with
  | (t, inl e) => (t, inl e)
  | (t, inr a) => let '(t', r) := f a in (t ++ t', r)
  end.

Definition raise {A} (e : exn) : M A := ([], inl e).

(** [state = await node(state)], logged under the node's name. *)
Definition call (name : string) (node : GraphState -> GraphState)
    (st : GraphState) : M GraphState :=
  let st' := node st in ([Ran name st'], inr st').

(** [yield e] *)
Definition yield_ (e : Event) : M unit := ([Yield e], inr tt).

Definition log {A} (m : M A) : list obs := fst m.
Definition outcome {A} (m : M A) : exn + A := snd m.

(** The value of a run that ended normally. *)
Definition returned {A} (m : M A) : option A :=
  match outcome m with inr a => Some a | inl _ => None end.

(** What the name [state] is bound to when [run_graph] builds its result:
    the [GraphState] object the inline pipeline leaves, or the dict of
    channel values that [graph.ainvoke] returns. *)
Inductive Bound :=
| Object (st : GraphState)
| Dict (values : GraphState).

(** [state.<name>]: the attribute of an object; a dict has none. *)
Definition getattr {A} (field : GraphState -> A) (name : string) (v : Bound)
  : M A :=
  match v with
  | Object st => mret (field st)
  | Dict _ => raise (AttributeError name)
  end.

(** Projections of a log. *)
Definition events (t : list obs) : list Event :=
  omap (fun o => match o with Yield e => Some e | Ran _ _ => None end) t.

Definition nodes_run (t : list obs) : list string :=
  omap (fun o => match o with Ran n _ => Some n | Yield _ => None end) t.

Definition states (t : list obs) : list GraphState :=
  omap (fun o => match o with Ran _ st => Some st | Yield _ => None end) t.

Definition of_type (ty : string) (evs : list Event) : list Event :=
  filter (fun e => ev_type e = ty) evs.

Definition text_of (e : Event) : string :=
  match ev_content e with Text s => s | Sources _ => "" end.

(** ** The LLM provider *)

(** Keyword arguments of [completion]; the code reads these three keys with
    [kwargs.get(key, default)]. *)
Record Kwargs := {
  kw_model : option string;
  kw_temperature : option Q;
  kw_max_tokens : option Z
}.

Definition kwargs_max_tokens (n : Z) : Kwargs :=
  {| kw_model := None; kw_temperature := None; kw_max_tokens := Some n |}.

(** [client.chat.completions.create(model=, messages=, temperature=,
    max_tokens=)]; a message is a (role, content) pair. *)
Record OpenAIRequest := {
  oa_model : string;
  oa_messages : list (string * string);
  oa_temperature : Q;
  oa_max_tokens : Z
}.

(** [client.messages.create(model=, max_tokens=, system=, messages=)] *)
Record AnthropicRequest := {
  an_model : string;
  an_max_tokens : Z;
  an_system : string;
  an_messages : list (string * string)
}.

(** What the body of a [try] does: it returns the reply text, or some
    [Exception] with message [str(e)] escapes from it. *)
Inductive attempt :=
| Returned (text : string)
| Raised (msg : string).

Definition nl : string := String (ascii_of_nat 10) EmptyString.

Definition END : string := "__end__".

(** LangGraph's default [recursion_limit]. *)
Definition recursion_limit : nat := 25.

(** A node is an [async def node(state) -> state]. *)
Definition Node : Type := GraphState -> GraphState.

(** The [StateGraph] builder: registered nodes, the entry point, the
    conditional edges (source, condition, path map) and the plain edges. *)
Record StateGraph := {
  sg_nodes : list (string * Node);
  sg_entry : option string;
  sg_branches :
    list (string * ((GraphState -> string) * list (string * string)));
  sg_edges : list (string * string)
}.

Definition StateGraph_new : StateGraph :=
  {| sg_nodes := []; sg_entry := None; sg_branches := []; sg_edges := [] |}.

Definition add_node (name : string) (f : Node) (g : StateGraph) : StateGraph :=
  {| sg_nodes := sg_nodes g ++ [(name, f)]; sg_entry := sg_entry g;
     sg_branches := sg_branches g; sg_edges := sg_edges g |}.

Definition set_entry_point (name : string) (g : StateGraph) : StateGraph :=
  {| sg_nodes := sg_nodes g; sg_entry := Some name;
     sg_branches := sg_branches g; sg_edges := sg_edges g |}.

Definition add_conditional_edges (src : string) (cond : GraphState -> string)
    (path_map : list (string * string)) (g : StateGraph) : StateGraph :=
  {| sg_nodes := sg_nodes g; sg_entry := sg_entry g;
     sg_branches := sg_branches g ++ [(src, (cond, path_map))];
     sg_edges := sg_edges g |}.

Definition add_edge (src dst : string) (g : StateGraph) : StateGraph :=
  {| sg_nodes := sg_nodes g; sg_entry := sg_entry g;
     sg_branches := sg_branches g; sg_edges := sg_edges g ++ [(src, dst)] |}.

(** [d[k]] on a dict kept in insertion order. *)
Fixpoint assoc {A} (k : string) (d : list (string * A)) : option A :=
  match d with
  | [] => None
  | (k', v) :: d' => if String.eqb k k' then Some v else assoc k d'
  end.

(** Where the engine goes after node [cur] left state [st]: through the
    node's conditional edge if it has one, else along its plain edge, else
    the run ends. *)
Definition successor (g : StateGraph) (cur : string) (st : GraphState)
  : M string :=
  match assoc cur (sg_branches g) with
  | Some (cond, path_map) =>
      match assoc (cond st) path_map with
      | Some dst => mret dst
      | None => raise (KeyError (cond st))
      end
  | None =>
      match assoc cur (sg_edges g) with
      | Some dst => mret dst
      | None => mret END
      end
  end.

(** The engine's loop for graphs in which one node is active at a time,
    as all graphs built here are: run the node, follow its edge, stop at
    [END]; [fuel] counts the steps left before [GraphRecursionError]. *)
Fixpoint run_from (g : StateGraph) (fuel : nat) (cur : string)
    (st : GraphState) : M GraphState :=
  if String.eqb cur END then mret st else
  match fuel with
  | O => raise GraphRecursionError
  | S fuel' =>
      match assoc cur (sg_nodes g) with
      | None => raise (KeyError cur)
      | Some node =>
          st' ← call cur node st;
          next ← successor g cur st';
          run_from g fuel' next st'
      end
  end.

(** [await graph.ainvoke(state)] on the compiled graph: the nodes it runs
    and the channel values of the dict it returns. *)
Definition ainvoke (g : StateGraph) (st : GraphState) : M GraphState :=
  match sg_entry g with
  | Some entry => run_from g recursion_limit entry st
  | None => raise (KeyError "__start__")
  end.

(** The contents of the [answer] events of a stream over [words]:
    [" ".join(words[i:i+5])] for [i in range(0, len(words), 5)]. *)
Definition answer_chunks (words : list string) : list string :=
  (fun i => Py.join " " (Py.slice words i (i + 5)))
    <$> Py.range 0 (length words) 5.

(** The word groups behind the chunks: [words[i:i+5]] for
    [i in range(0, len(words), 5)]. *)
Definition groups (words : list string) : list (list string) :=
  (fun i => Py.slice words i (i + 5)) <$> Py.range 0 (length words) 5.

(** Word counts read left to right: every group holds exactly five words,
    except that the last one may hold one to five. *)
Fixpoint five_grouped (counts : list nat) : Prop :=
  match counts with
  | [] => True
  | [n] => 1 <= n <= 5
  | n :: rest => n = 5 /\ five_grouped rest
  end.

(** [len(chunk.split())] *)
Definition word_count (chunk : string) : nat := length (Py.split chunk).

(** ** Stub environments *)

(** A Completion stub that answers the Router's call (the one capped at 50
    tokens) with [label] and every other call with [reply]. *)
Definition stub_openai (label reply : string) (req : OpenAIRequest) : attempt :=
  if (oa_max_tokens req =? 50)%Z then Returned label else Returned reply.

(** A Completion stub that answers the Router's call with [label] and
    echoes the user prompt on every other call. *)
Definition echo_openai (label : string) (req : OpenAIRequest) : attempt :=
  if (oa_max_tokens req =? 50)%Z then Returned label
  else Returned (default "" (assoc "user" (oa_messages req))).

(** A provider that is down. *)
Definition down_openai (req : OpenAIRequest) : attempt :=
  Raised "Connection error.".

Definition down_anthropic (req : AnthropicRequest) : attempt :=
  Raised "Connection error.".

Definition demo_ctx : Ctx :=
  {| ctx_org_id := "demo-org"; ctx_conversation_id := "c-1";
     ctx_tools := Some [] |}.

(** ** Notions the properties are stated with *)

(** [retrieved_docs] and [sources] are filled together or not at all, and
    when filled, [sources[i]] is the citation of [retrieved_docs[i]]. *)
Definition docs_sources_inv (st : GraphState) : Prop :=
  (retrieved_docs st = [] /\ sources st = []) \/
  (length (retrieved_docs st) = length (sources st) /\
   forall i d, retrieved_docs st !! i = Some d ->
     exists s, sources st !! i = Some s /\ src_id s = doc_id d /\
               src_source s = doc_source d /\ src_score s = doc_score d).

(** A reply reads as a label when it is that label, each letter in either
    case, with nothing but whitespace before and after it. *)
Definition lower_letter (l : ascii) : bool :=
  ((97 <=? N_of_ascii l) && (N_of_ascii l <=? 122))%N.

Definition upper_of (l : ascii) : ascii := ascii_of_N (N_of_ascii l - 32).

Fixpoint lower_word (l : string) : bool :=
  match l with
  | EmptyString => true
  | String c l' => lower_letter c && lower_word l'
  end.

Fixpoint case_variant (w label : string) : Prop :=
  match w, label with
  | EmptyString, EmptyString => True
  | String c w', String l label' =>
      lower_letter l = true /\ (c = l \/ c = upper_of l) /\
      case_variant w' label'
  | _, _ => False
  end.

Definition reads_as (text label : string) : Prop :=
  exists pre w post,
    text = pre +:+ w +:+ post /\ Py.blank pre = true /\
    Py.blank post = true /\ case_variant w label.

(** The citations a consumer sees in a stream: the contents of its
    [sources] events. *)
Definition observed_sources (evs : list Event) : list SourceRef :=
  mjoin ((fun e => match ev_content e with Sources ss => ss | Text _ => [] end)
           <$> of_type "sources" evs).

(** What a consumer can assemble from a stream with one [complete] event:
    its answer and metadata, with the citations seen on the way. *)
Definition stream_view (evs : list Event) : option Result :=
  match of_type "complete" evs with
  | [c] => Some {| res_answer := text_of c;
                   res_sources := observed_sources evs;
                   res_metadata := default ∅ (ev_metadata c) |}
  | _ => None
  end.

(** ** The HTTP layer of [apps/api/main.py]: data *)

(** The pydantic models [ChatRequest] and [IngestRequest], with their
    defaults already filled in. *)
Record ChatRequest := {
  req_org_id : string;
  req_conversation_id : option string;
  req_message : string;
  req_tools : list string
}.

Record IngestRequest := {
  ing_org_id : string;
  ing_url : string;
  ing_source : string
}.

(** A stored message: the dict with keys [role], [content], [timestamp]
    and, on assistant messages, [sources]. *)
Record Message := {
  msg_role : string;
  msg_content : string;
  msg_sources : option (list SourceRef);
  msg_timestamp : string
}.

(** A stored conversation: the dict with keys [id], [org_id], [messages]. *)
Record Conversation := {
  conv_id : string;
  conv_org_id : string;
  conv_messages : list Message
}.

(** A stored document record. *)
Record StoredDocument := {
  sd_id : string;
  sd_org_id : string;
  sd_source : string;
  sd_uri : string;
  sd_status : string;
  sd_created_at : string
}.

(** The two module-level dicts [conversations] and [documents]. *)
Record Store := {
  conversations : gmap string Conversation;
  documents : gmap string StoredDocument
}.

Definition empty_store : Store := {| conversations := ∅; documents := ∅ |}.

Record ChatResponse := {
  resp_conversation_id : string;
  resp_answer : string;
  resp_sources : list SourceRef;
  resp_metadata : gmap string string
}.

Record IngestResponse := {
  ir_doc_id : string;
  ir_status : string;
  ir_message : string
}.

Record AuthInfo := {
  auth_user_id : string;
  auth_org_id : string;
  auth_email : string;
  auth_role : string
}.

(** How a handler fails: with an [HTTPException] it raises itself, or with
    an exception that escapes from what it calls. *)
Inductive api_error :=
| HTTPException (status_code : nat) (detail : string)
| Unhandled (e : exn).

(** What [event_generator] hands to [json.dumps]: a chunk of the stream or
    the closing [{'done': True}]. *)
Inductive SsePayload :=
| ChunkPayload (e : Event)
| DonePayload.

(** [x or y] on an optional string: [None] and [""] are falsy. *)
Definition or_else (x : option string) (y : string) : string :=
  match x with
  | Some s => if String.eqb s "" then y else s
  | None => y
  end.

(** [conversations[conv_id]["messages"].append(m)] *)
Definition append_message (cid : string) (m : Message)
    (convs : gmap string Conversation) : exn + gmap string Conversation :=
  match convs !! cid with
  | Some c =>
      inr (<[cid := {| conv_id := conv_id c; conv_org_id := conv_org_id c;
                       conv_messages := conv_messages c ++ [m] |}]> convs)
  | None => inl (KeyError cid)
  end.

(** [POST /auth/verify]; [authorization] is the request's Authorization
    header if it has one, [uuid4] the value [str(uuid.uuid4())] takes. The
    token cut out of the header is not used. *)
Definition verify_auth (authorization : option string) (uuid4 : string)
  : api_error + AuthInfo :=
  let auth_header := default "" authorization in
  if negb (String.prefix "Bearer " auth_header) then
    inl (HTTPException 401 "Invalid authorization header")
  else
    inr {| auth_user_id := uuid4; auth_org_id := "demo-org";
           auth_email := "demo@autobrain.ai"; auth_role := "admin" |}.

(** [POST /ingest/url]; [now] is [datetime.utcnow().isoformat()]. *)
Definition ingest_url (uuid4 now : string) (req : IngestRequest) (st : Store)
  : Store * IngestResponse :=
  let doc_id := uuid4 in
  let st :=
    {| conversations := conversations st;
       documents :=
         <[doc_id := {| sd_id := doc_id; sd_org_id := ing_org_id req;
                        sd_source := ing_source req; sd_uri := ing_url req;
                        sd_status := "queued"; sd_created_at := now |}]>
           (documents st) |} in
  (st, {| ir_doc_id := doc_id; ir_status := "queued";
          ir_message := "Document queued for ingestion" |}).

(** [GET /documents/{doc_id}] *)
Definition get_document (doc_id : string) (st : Store)
  : api_error + StoredDocument :=
  match documents st !! doc_id with
  | None => inl (HTTPException 404 "Document not found")
  | Some d => inr d
  end.

(** [GET /conversations/{conversation_id}] *)
Definition get_conversation (conversation_id : string) (st : Store)
  : api_error + Conversation :=
  match conversations st !! conversation_id with
  | None => inl (HTTPException 404 "Conversation not found")
  | Some c => inr c
  end.

(** A stand-in for [json.dumps] and a store holding one conversation of
    the tenant acme, for the examples. *)
Definition stub_dumps (payload : SsePayload) : string :=
  match payload with
  | ChunkPayload e => ev_type e
  | DonePayload => "done"
  end.

Definition demo_store : Store :=
  {| conversations :=
       <["c-1" := {| conv_id := "c-1"; conv_org_id := "acme";
                     conv_messages := [] |}]> ∅;
     documents := ∅ |}.

(** ** The orchestrator, over its environment *)

Section Orchestrator.

(** [os.getenv("LLM_PROVIDER")], the two vendor SDK calls (the body of each
    [try], import and client construction included), and whether
    [from langgraph.graph import StateGraph, END] succeeded. *)
Variable LLM_PROVIDER : option string.
Variable openai_create : OpenAIRequest -> attempt.
Variable anthropic_create : AnthropicRequest -> attempt.
Variable langgraph_installed : bool.

Record LLMProvider := { provider : string }.

Definition LLMProvider_init : LLMProvider :=
  {| provider := default "openai" LLM_PROVIDER |}.

(** The arguments of [client.chat.completions.create(...)]. *)
Definition openai_request (system user : string) (kwargs : Kwargs)
  : OpenAIRequest :=
  {| oa_model := default "gpt-4o-mini" (kw_model kwargs);
     oa_messages := [("system", system); ("user", user)];
     oa_temperature := default (7 # 10)%Q (kw_temperature kwargs);
     oa_max_tokens := default 1000%Z (kw_max_tokens kwargs) |}.

(** The arguments of [client.messages.create(...)]. *)
Definition anthropic_request (system user : string) (kwargs : Kwargs)
  : AnthropicRequest :=
  {| an_model := default "claude-3-5-sonnet-20241022" (kw_model kwargs);
     an_max_tokens := default 1000%Z (kw_max_tokens kwargs);
     an_system := system;
     an_messages := [("user", user)] |}.

Definition _openai_completion (self : LLMProvider) (system user : string)
    (kwargs : Kwargs) : string :=
  match openai_create (openai_request system user kwargs) with
  | Returned content => content
  | Raised e => "Error calling OpenAI: " +:+ e
  end.

Definition _anthropic_completion (self : LLMProvider) (system user : string)
    (kwargs : Kwargs) : string :=
  match anthropic_create (anthropic_request system user kwargs) with
  | Returned text => text
  | Raised e => "Error calling Anthropic: " +:+ e
  end.

Definition completion (self : LLMProvider) (system user : string)
    (kwargs : Kwargs) : string :=
  if String.eqb (provider self) "openai" then
    _openai_completion self system user kwargs
  else if String.eqb (provider self) "anthropic" then
    _anthropic_completion self system user kwargs
  else
    _openai_completion self system user kwargs.

Definition llm : LLMProvider := LLMProvider_init.

(** *** Agent nodes *)

Definition router_system : string :=
  "You are a routing agent. Classify the user's query into one of:
- 'qa': Question answering from knowledge base
- 'summarize': Summarization task
- 'action': Action/task execution (send email, create task, etc.)

Respond with just the category name.".

Definition router_node (state : GraphState) : GraphState :=
  let system := router_system in
  let route := completion llm system (query state) (kwargs_max_tokens 50) in
  let route := Py.lower (Py.strip route) in
  let route :=
    if negb (Py.In_b route ["qa"; "summarize"; "action"]) then "qa"
    else route in
  let state := set_route route state in
  let state := set_metadata_item "route" route state in
  state.

Definition mock_docs : list ScoredDocument :=
  [ {| doc_id := "doc1";
       doc_content := "AutoBrain is a knowledge assistant that helps teams stay organized and informed.";
       doc_source := "docs";
       doc_score := (95 # 100)%Q |};
    {| doc_id := "doc2";
       doc_content := "The system uses RAG (Retrieval Augmented Generation) to provide accurate answers.";
       doc_source := "docs";
       doc_score := (87 # 100)%Q |} ].

(** [{"id": d["id"], "source": d["source"], "score": d["score"]}] *)
Definition source_of (d : ScoredDocument) : SourceRef :=
  {| src_id := doc_id d; src_source := doc_source d;
     src_score := doc_score d |}.

Definition retrieve_node (state : GraphState) : GraphState :=
  let state := set_retrieved_docs mock_docs state in
  let state := set_sources (source_of <$> mock_docs) state in
  state.

Definition synthesize_system : string :=
  "You are a helpful AI assistant. Use the provided context to answer the user's question.
If the context doesn't contain relevant information, say so clearly.
Provide concise, accurate answers with citations to source documents.".

Definition synthesize_prompt (state : GraphState) : string :=
  let context :=
    Py.join (nl +:+ nl)
      (imap (fun i doc =>
               "Document " +:+ pretty (i + 1) +:+ ": " +:+ doc_content doc)
            (retrieved_docs state)) in
  "Context:
" +:+ context +:+ "

Question: " +:+ query state +:+ "

Provide a helpful answer based on the context above.".

Definition synthesize_node (state : GraphState) : GraphState :=
  let system := synthesize_system in
  let user_prompt := synthesize_prompt state in
  let answer := completion llm system user_prompt (kwargs_max_tokens 500) in
  set_answer answer state.

Definition action_system : string :=
  "You are an action execution agent. Based on the user's request, " +:+ nl +:+
  "determine what action to take and provide a response.".

Definition action_prompt (state : GraphState) : string :=
  "User wants to: " +:+ query state +:+ nl +:+ nl +:+
  "Simulate the action and respond.".

Definition action_node (state : GraphState) : GraphState :=
  let system := action_system in
  let answer :=
    completion llm system (action_prompt state) (kwargs_max_tokens 300) in
  let state := set_answer answer state in
  let state := set_metadata_item "action_taken" "simulated" state in
  state.

(** *** The graph *)

Definition route_condition (state : GraphState) : string :=
  if String.eqb (route state) "qa" then "retrieve"
  else if String.eqb (route state) "summarize" then "synthesize"
  else if String.eqb (route state) "action" then "action"
  else END.

Definition build_graph : option StateGraph :=
  if negb langgraph_installed then None else
  let graph := StateGraph_new in
  let graph := add_node "router" router_node graph in
  let graph := add_node "retrieve" retrieve_node graph in
  let graph := add_node "synthesize" synthesize_node graph in
  let graph := add_node "action" action_node graph in
  let graph := set_entry_point "router" graph in
  let graph :=
    add_conditional_edges "router" route_condition
      [("retrieve", "retrieve"); ("synthesize", "synthesize");
       ("action", "action"); (END, END)] graph in
  let graph := add_edge "retrieve" "synthesize" graph in
  let graph := add_edge "synthesize" END graph in
  let graph := add_edge "action" END graph in
  Some graph.

(** *** Entry points *)

Definition initial_state (ctx : Ctx) (query : string) : GraphState :=
  GraphState_init (ctx_org_id ctx) (ctx_conversation_id ctx) query
    (default [] (ctx_tools ctx)).

(** The branch of [run_graph]: the nodes it runs and the values of the
    state it leaves, held by the [GraphState] object in the inline pipeline
    and by the dict [graph.ainvoke] returns under LangGraph. *)
Definition run_graph_state (ctx : Ctx) (query : string) : M GraphState :=
  let state := initial_state ctx query in
  let graph := build_graph in
  match graph with
  | None =>
      state ← call "router" router_node state;
      if Py.In_b (route state) ["qa"; "summarize"] then
        state ← call "retrieve" retrieve_node state;
        call "synthesize" synthesize_node state
      else
        call "action" action_node state
  | Some graph => ainvoke graph state
  end.

Definition run_graph (ctx : Ctx) (query : string) : M Result :=
  values ← run_graph_state ctx query;
  let state :=
    match build_graph with
    | None => Object values
    | Some _ => Dict values
    end in
  answer ← getattr answer "answer" state;
  sources ← getattr sources "sources" state;
  metadata ← getattr metadata "metadata" state;
  mret {| res_answer := answer;
          res_sources := sources;
          res_metadata := metadata |}.

Definition event (ty : string) (c : Content) : Event :=
  {| ev_type := ty; ev_content := c; ev_metadata := None |}.

(** [for x in xs: body(x)] *)
Fixpoint for_ {A} (xs : list A) (body : A -> M unit) : M unit :=
  match xs with
  | [] => mret tt
  | x :: xs' => _ ← body x; for_ xs' body
  end.

Definition run_graph_stream (ctx : Ctx) (query : string) : M unit :=
  let state := initial_state ctx query in
  _ ← yield_ (event "routing" (Text "Analyzing your query..."));
  state ← call "router" router_node state;
  _ ← yield_ (event "route" (Text ("Route: " +:+ route state)));
  state ←
    (if Py.In_b (route state) ["qa"; "summarize"] then
       _ ← yield_ (event "retrieving" (Text "Searching knowledge base..."));
       state ← call "retrieve" retrieve_node state;
       _ ← yield_ (event "sources" (Sources (sources state)));
       mret state
     else mret state);
  _ ← yield_ (event "thinking" (Text "Generating answer..."));
  state ←
    (if Py.In_b (route state) ["qa"; "summarize"] then
       call "synthesize" synthesize_node state
     else
       call "action" action_node state);
  let words := Py.split (answer state) in
  _ ← for_ (Py.range 0 (length words) 5) (fun i =>
        let chunk := Py.join " " (Py.slice words i (i + 5)) in
        yield_ (event "answer" (Text chunk)));
  yield_ {| ev_type := "complete"; ev_content := Text (answer state);
            ev_metadata := Some (metadata state) |}.

(** *** HTTP handlers that run the orchestrator *)

(** [json.dumps] on the payloads of the event stream. *)
Variable json_dumps : SsePayload -> string.

(** [POST /chat/query]; [uuid4] is the value [str(uuid.uuid4())] takes if it
    is called, [now_user] and [now_assistant] the two timestamps. An
    exception leaves the store as it was when it was raised. *)
Definition chat_query (uuid4 now_user now_assistant : string)
    (req : ChatRequest) (st : Store) : Store * (api_error + ChatResponse) :=
  let conv_id := or_else (req_conversation_id req) uuid4 in
  let convs := conversations st in
  let convs :=
    match convs !! conv_id with
    | None =>
        <[conv_id := {| conv_id := conv_id; conv_org_id := req_org_id req;
                        conv_messages := [] |}]> convs
    | Some _ => convs
    end in
  match append_message conv_id
          {| msg_role := "user"; msg_content := req_message req;
             msg_sources := None; msg_timestamp := now_user |} convs with
  | inl e => ({| conversations := convs; documents := documents st |},
              inl (Unhandled e))
  | inr convs =>
      let ctx := {| ctx_org_id := req_org_id req;
                    ctx_conversation_id := conv_id;
                    ctx_tools := Some (req_tools req) |} in
      match outcome (run_graph ctx (req_message req)) with
      | inl e => ({| conversations := convs; documents := documents st |},
                  inl (Unhandled e))
      | inr result =>
          match append_message conv_id
                  {| msg_role := "assistant";
                     msg_content := res_answer result;
                     msg_sources := Some (res_sources result);
                     msg_timestamp := now_assistant |} convs with
          | inl e => ({| conversations := convs; documents := documents st |},
                      inl (Unhandled e))
          | inr convs =>
              ({| conversations := convs; documents := documents st |},
               inr {| resp_conversation_id := conv_id;
                      resp_answer := res_answer result;
                      resp_sources := res_sources result;
                      resp_metadata := res_metadata result |})
          end
      end
  end.

(** One server-sent event: [f"data: {json.dumps(payload)}\n\n"]. *)
Definition sse_frame (payload : SsePayload) : string :=
  "data: " +:+ json_dumps payload +:+ nl +:+ nl.

(** [POST /chat/stream]: the frames [event_generator] yields, one for every
    chunk of the stream and, once the stream is exhausted, the closing
    one. *)
Definition chat_stream (uuid4 : string) (req : ChatRequest) : list string :=
  let conv_id := or_else (req_conversation_id req) uuid4 in
  let ctx := {| ctx_org_id := req_org_id req;
                ctx_conversation_id := conv_id;
                ctx_tools := Some (req_tools req) |} in
  let run := run_graph_stream ctx (req_message req) in
  (sse_frame ∘ ChunkPayload <$> events (log run))
  ++ match outcome run with
     | inr _ => [sse_frame DonePayload]
     | inl _ => []
     end.

(** *** Sequences of requests *)

(** One request that writes to the store, with the values the handler draws
    from [uuid] and the clock. *)
Inductive ApiCall :=
| CallIngest (uuid4 now : string) (req : IngestRequest)
| CallChat (uuid4 now_user now_assistant : string) (req : ChatRequest).

(** The store after one request, and after a sequence of them. *)
Definition serve (c : ApiCall) (st : Store) : Store :=
  match c with
  | CallIngest uuid4 now req => fst (ingest_url uuid4 now req st)
  | CallChat uuid4 now_user now_assistant req =>
      fst (chat_query uuid4 now_user now_assistant req st)
  end.

Definition serve_all (cs : list ApiCall) (st : Store) : Store :=
  foldl (fun st c => serve c st) st cs.

(** The ids under which a sequence of requests ingests documents. *)
Definition ingested_ids (cs : list ApiCall) : list string :=
  omap (fun c => match c with
                 | CallIngest uuid4 _ _ => Some uuid4
                 | CallChat _ _ _ _ => None
                 end) cs.




(** What the caller of [chat_query] gets from the model: the answer, the
    citations and the metadata, or the failure. *)
Definition response_view (out : api_error + ChatResponse)
  : api_error + (string * list SourceRef * gmap string string) :=
  match out with
  | inl e => inl e
  | inr resp => inr (resp_answer resp, resp_sources resp, resp_metadata resp)
  end.

(** * Properties *)

(** ** Strings: [split], [join] and the five-word groups *)

Section Text.

Import Py.

Lemma string_app_cons (c : ascii) (s t : string) :
  String c s +:+ t = String c (s +:+ t).
Proof. reflexivity. Qed.

Lemma string_app_nil_l (s : string) : "" +:+ s = s.
Proof. reflexivity. Qed.

Lemma string_app_nil_r (s : string) : s +:+ "" = s.
Proof.
  induction s as [|c s IH]; [done |]. rewrite string_app_cons. by f_equal.
Qed.

Lemma string_app_assoc (s1 s2 s3 : string) :
  (s1 +:+ s2) +:+ s3 = s1 +:+ (s2 +:+ s3).
Proof.
  induction s1 as [|c s1 IH]; [done |]. rewrite !string_app_cons. by f_equal.
Qed.

Lemma spaceless_app (s1 s2 : string) :
  spaceless (s1 +:+ s2) = spaceless s1 && spaceless s2.
Proof.
  induction s1 as [|c s1 IH]; [done |].
  rewrite string_app_cons. simpl. rewrite IH. by destruct (py_isspace c).
Qed.

Lemma flush_word (w : string) : w <> "" -> flush w = [w].
Proof. by destruct w. Qed.

Lemma flush_words (cur : string) :
  spaceless cur = true -> Forall is_word (flush cur).
Proof.
  intros Hcur. destruct cur; simpl; [constructor |].
  repeat constructor; [discriminate | done].
Qed.

(** Nothing but whitespace holds no word. *)
Lemma split_go_blank (s cur : string) :
  blank s = true -> split_go cur s = flush cur.
Proof.
  revert cur. induction s as [|c s IH]; intros cur Hb; simpl in *; [done |].
  apply andb_prop in Hb as [Hc Hs]. rewrite Hc, (IH "" Hs). simpl.
  by rewrite app_nil_r.
Qed.

Lemma split_blank (s : string) : blank s = true -> split s = [].
Proof. intros Hb. unfold split. by rewrite split_go_blank. Qed.

(** The scan passes over a whitespace-free piece by growing the word. *)
Lemma split_go_spaceless (w rest cur : string) :
  spaceless w = true -> split_go cur (w +:+ rest) = split_go (cur +:+ w) rest.
Proof.
  revert cur. induction w as [|c w IH]; intros cur Hw.
  - by rewrite string_app_nil_l, string_app_nil_r.
  - simpl in Hw. apply andb_prop in Hw as [Hc Hw]. apply negb_true_iff in Hc.
    rewrite string_app_cons. simpl. rewrite Hc, IH by done.
    by rewrite string_app_assoc.
Qed.

(** Every piece [split] returns is a word. *)
Lemma split_go_words (s cur : string) :
  spaceless cur = true -> Forall is_word (split_go cur s).
Proof.
  revert cur. induction s as [|c s IH]; intros cur Hcur; simpl.
  - by apply flush_words.
  - destruct (py_isspace c) eqn:Hc.
    + apply Forall_app. split; [by apply flush_words | by apply IH].
    + apply IH. rewrite spaceless_app, Hcur. simpl. by rewrite Hc.
Qed.

Lemma split_words (s : string) : Forall is_word (split s).
Proof. by apply split_go_words. Qed.

Lemma join_cons (sep w : string) (ws : list string) :
  ws <> [] -> join sep (w :: ws) = w +:+ sep +:+ join sep ws.
Proof. by destruct ws. Qed.

(** [" ".join(ws).split() == ws] when [ws] are words. *)
Lemma split_join (ws : list string) :
  Forall is_word ws -> split (join " " ws) = ws.
Proof.
  unfold split. induction 1 as [|w ws [Hne Hw] Hws IH]; [done |].
  destruct ws as [|w' ws].
  - change (join " " [w]) with w.
    rewrite <- (string_app_nil_r w) at 1.
    rewrite split_go_spaceless, string_app_nil_l by done.
    simpl. by apply flush_word.
  - rewrite join_cons by done.
    rewrite split_go_spaceless by done.
    rewrite string_app_nil_l, string_app_cons, string_app_nil_l.
    cbn [split_go]. change (py_isspace " ") with true. cbn iota.
    by rewrite IH, flush_word.
Qed.

Lemma join_app (sep : string) (xs ys : list string) :
  xs <> [] -> ys <> [] ->
  join sep (xs ++ ys) = join sep xs +:+ sep +:+ join sep ys.
Proof.
  intros Hx Hy. induction xs as [|x xs IH]; [done |].
  destruct xs as [|x' xs].
  - simpl app. by rewrite join_cons.
  - change ((x :: x' :: xs) ++ ys) with (x :: ((x' :: xs) ++ ys)).
    rewrite !join_cons by (done || by destruct ys).
    rewrite IH by done. by rewrite !string_app_assoc.
Qed.

(** Joining the joined groups is joining all the words. *)
Lemma join_groups (gs : list (list string)) :
  Forall (fun g => g <> []) gs ->
  join " " (join " " <$> gs) = join " " (mjoin gs).
Proof.
  induction 1 as [|g gs Hg Hgs IH]; [done |].
  destruct gs as [|g' gs].
  - simpl. by rewrite app_nil_r.
  - change (join " " <$> g :: g' :: gs)
      with (join " " g :: (join " " <$> g' :: gs)).
    rewrite join_cons by done. rewrite IH.
    change (mjoin (g :: g' :: gs)) with (g ++ mjoin (g' :: gs)).
    rewrite join_app; [done | done |].
    inversion Hgs; subst. simpl. by destruct g'.
Qed.

Lemma range_step5 (n : nat) :
  0 < n -> range 0 n 5 = 0 :: ((fun i => i + 5) <$> range 0 (n - 5) 5).
Proof.
  intros Hn. unfold range.
  assert ((n - 0 + 5 - 1) / 5 = S ((n - 5 - 0 + 5 - 1) / 5)) as ->.
  { destruct (decide (n <= 5)) as [Hle|Hgt].
    - replace (n - 5 - 0 + 5 - 1) with 4 by lia.
      change (4 / 5) with 0. symmetry. apply Nat.div_unique with (n - 1); lia.
    - replace (n - 0 + 5 - 1) with ((n - 5 - 0 + 5 - 1) + 1 * 5) by lia.
      rewrite Nat.div_add by lia. lia. }
  cbn [seq fmap list_fmap]. f_equal.
  rewrite <- fmap_S_seq, <- !list_fmap_compose.
  apply list_fmap_ext. intros _ k _. simpl. lia.
Qed.

Lemma groups_nil : groups [] = [].
Proof. reflexivity. Qed.

(** The loop peels five words off the front at every turn. *)
Lemma groups_step (ws : list string) :
  ws <> [] -> groups ws = take 5 ws :: groups (drop 5 ws).
Proof.
  intros Hne. unfold groups.
  assert (0 < length ws) as Hlen by (destruct ws; [done | simpl; lia]).
  rewrite range_step5 by done.
  cbn [fmap list_fmap]. f_equal.
  rewrite <- list_fmap_compose, length_drop.
  apply list_fmap_ext. intros _ i _. unfold slice. simpl.
  rewrite drop_drop. f_equal; [lia |]. f_equal. lia.
Qed.

Lemma answer_chunks_groups (ws : list string) :
  answer_chunks ws = join " " <$> groups ws.
Proof. unfold answer_chunks, groups. by rewrite <- list_fmap_compose. Qed.

(** The groups, in order, are the words. *)
Lemma groups_mjoin (ws : list string) : mjoin (groups ws) = ws.
Proof.
  remember (length ws) as n eqn:Hn. revert ws Hn.
  induction n as [n IH] using lt_wf_ind. intros ws ->.
  destruct ws as [|w ws]; [done |].
  rewrite groups_step by done.
  change (take 5 (w :: ws) ++ mjoin (groups (drop 5 (w :: ws))) = w :: ws).
  assert (mjoin (groups (drop 5 (w :: ws))) = drop 5 (w :: ws)) as ->.
  { eapply IH; [| done]. rewrite length_drop. simpl. lia. }
  apply take_drop.
Qed.

Lemma groups_nonempty (ws : list string) :
  Forall (fun g => g <> []) (groups ws).
Proof.
  remember (length ws) as n eqn:Hn. revert ws Hn.
  induction n as [n IH] using lt_wf_ind. intros ws ->.
  destruct ws as [|w ws]; [constructor |].
  rewrite groups_step by done. constructor; [done |].
  apply (IH (length (drop 5 (w :: ws)))); [| done].
  rewrite length_drop. simpl. lia.
Qed.

Lemma groups_five (ws : list string) :
  five_grouped (length <$> groups ws).
Proof.
  remember (length ws) as n eqn:Hn. revert ws Hn.
  induction n as [n IH] using lt_wf_ind. intros ws ->.
  destruct ws as [|w ws]; [done |].
  rewrite groups_step by done.
  assert (five_grouped (length <$> groups (drop 5 (w :: ws)))) as Hrest.
  { apply (IH (length (drop 5 (w :: ws)))); [| done].
    rewrite length_drop. simpl. lia. }
  destruct (drop 5 (w :: ws)) as [|w' ws'] eqn:Hd.
  - rewrite groups_nil. simpl. rewrite length_take. lia.
  - rewrite groups_step in * by done.
    cbn [fmap list_fmap five_grouped] in *. split; [| done].
    assert (length (drop 5 (w :: ws)) > 0) by (rewrite Hd; simpl; lia).
    rewrite length_drop in *. rewrite length_take. lia.
Qed.

Lemma groups_words (ws : list string) :
  Forall is_word ws -> Forall (Forall is_word) (groups ws).
Proof.
  intros Hws. unfold groups. apply Forall_fmap, Forall_forall.
  intros i _. unfold slice. simpl. by apply Forall_take, Forall_drop.
Qed.

(** Each chunk reads back as its group of words. *)
Lemma word_count_chunks (ws : list string) :
  Forall is_word ws ->
  word_count <$> answer_chunks ws = length <$> groups ws.
Proof.
  intros Hws. rewrite answer_chunks_groups, <- list_fmap_compose.
  apply Forall_fmap_ext. eapply Forall_impl; [by apply groups_words |].
  intros g Hg. unfold word_count. simpl. by rewrite split_join.
Qed.

Lemma split_chunks (ws : list string) :
  Forall is_word ws -> mjoin (split <$> answer_chunks ws) = ws.
Proof.
  intros Hws. rewrite answer_chunks_groups, <- list_fmap_compose.
  rewrite <- (groups_mjoin ws) at 2. f_equal.
  rewrite <- (list_fmap_id (groups ws)) at 2.
  apply Forall_fmap_ext. eapply Forall_impl; [by apply groups_words |].
  intros g Hg. simpl. by rewrite split_join.
Qed.

Lemma join_chunks (ws : list string) :
  join " " (answer_chunks ws) = join " " ws.
Proof.
  rewrite answer_chunks_groups, join_groups by apply groups_nonempty.
  by rewrite groups_mjoin.
Qed.

End Text.

(** ** Nodes *)

Ltac run_cbn :=
  cbn -[router_node synthesize_node action_node route_condition
        Py.In_b Py.split Py.range Py.join String.append for_].

(** Membership in a list written out: one case per element. *)
Ltac in_cases H :=
  repeat (apply elem_of_cons in H as [-> | H]; [try done |]);
  try (by apply elem_of_nil in H).

Lemma In_b_spec (x : string) (xs : list string) :
  Py.In_b x xs = true <-> x ∈ xs.
Proof. unfold Py.In_b. apply bool_decide_eq_true. Qed.

(** The classification the Router settles on. *)
Lemma router_node_route (state : GraphState) :
  let text := completion llm router_system (query state) (kwargs_max_tokens 50) in
  let label := Py.lower (Py.strip text) in
  route (router_node state) =
    if Py.In_b label ["qa"; "summarize"; "action"] then label else "qa".
Proof.
  cbn zeta. unfold router_node. cbn [route set_route set_metadata_item].
  by destruct (Py.In_b _ _).
Qed.

Lemma router_node_valid (state : GraphState) :
  route (router_node state) ∈ ["qa"; "summarize"; "action"].
Proof.
  rewrite router_node_route. cbn zeta.
  destruct (Py.In_b _ _) eqn:Hin; [by apply In_b_spec |].
  apply list_elem_of_here.
Qed.

Lemma router_node_keeps_docs (state : GraphState) :
  retrieved_docs (router_node state) = retrieved_docs state /\
  sources (router_node state) = sources state.
Proof. done. Qed.

Lemma retrieve_node_inv (state : GraphState) :
  docs_sources_inv (retrieve_node state).
Proof.
  right. split; [done |]. intros i d Hd.
  cbn [retrieve_node retrieved_docs sources set_sources set_retrieved_docs] in *.
  exists (source_of d). rewrite list_lookup_fmap, Hd. done.
Qed.

Lemma docs_sources_inv_keep (st st' : GraphState) :
  retrieved_docs st' = retrieved_docs st -> sources st' = sources st ->
  docs_sources_inv st -> docs_sources_inv st'.
Proof. unfold docs_sources_inv. by intros -> ->. Qed.

(** ** The logs of the two entry points *)

Lemma for_yield {A} (f : A -> Event) (xs : list A) :
  for_ xs (fun x => yield_ (f x)) = (Yield ∘ f <$> xs, inr tt).
Proof.
  induction xs as [|x xs IH]; [done |].
  cbn [for_]. rewrite IH. reflexivity.
Qed.

Lemma run_graph_stream_log (ctx : Ctx) (query : string) :
  let s1 := router_node (initial_state ctx query) in
  let retr := Py.In_b (route s1) ["qa"; "summarize"] in
  let s2 := if retr then retrieve_node s1 else s1 in
  let s3 := if retr then synthesize_node s2 else action_node s2 in
  run_graph_stream ctx query =
    ([Yield (event "routing" (Text "Analyzing your query..."));
      Ran "router" s1;
      Yield (event "route" (Text ("Route: " +:+ route s1)))]
     ++ (if retr then
           [Yield (event "retrieving" (Text "Searching knowledge base..."));
            Ran "retrieve" s2;
            Yield (event "sources" (Sources (sources s2)))]
         else [])
     ++ [Yield (event "thinking" (Text "Generating answer..."));
         Ran (if retr then "synthesize" else "action") s3]
     ++ (Yield ∘ (fun chunk => event "answer" (Text chunk))
           <$> answer_chunks (Py.split (answer s3)))
     ++ [Yield {| ev_type := "complete"; ev_content := Text (answer s3);
                  ev_metadata := Some (metadata s3) |}],
     inr tt).
Proof.
  intros s1 retr s2 s3. subst s2 s3 retr. unfold run_graph_stream. run_cbn.
  change (router_node (initial_state ctx query)) with s1. clearbody s1.
  destruct (Py.In_b (route s1) ["qa"; "summarize"]) eqn:Hr;
    run_cbn; rewrite Hr; run_cbn; rewrite for_yield; run_cbn;
    unfold answer_chunks; rewrite <- list_fmap_compose; reflexivity.
Qed.

Lemma run_graph_state_fallback (ctx : Ctx) (query : string) :
  langgraph_installed = false ->
  let s1 := router_node (initial_state ctx query) in
  run_graph_state ctx query =
    if Py.In_b (route s1) ["qa"; "summarize"] then
      ([Ran "router" s1; Ran "retrieve" (retrieve_node s1);
        Ran "synthesize" (synthesize_node (retrieve_node s1))],
       inr (synthesize_node (retrieve_node s1)))
    else
      ([Ran "router" s1; Ran "action" (action_node s1)],
       inr (action_node s1)).
Proof.
  intros Hlg s1. unfold run_graph_state, build_graph. rewrite Hlg. run_cbn.
  change (router_node (initial_state ctx query)) with s1. clearbody s1.
  by destruct (Py.In_b (route s1) ["qa"; "summarize"]).
Qed.

Lemma run_graph_state_langgraph (ctx : Ctx) (query : string) :
  langgraph_installed = true ->
  let s1 := router_node (initial_state ctx query) in
  run_graph_state ctx query =
    if String.eqb (route s1) "qa" then
      ([Ran "router" s1; Ran "retrieve" (retrieve_node s1);
        Ran "synthesize" (synthesize_node (retrieve_node s1))],
       inr (synthesize_node (retrieve_node s1)))
    else if String.eqb (route s1) "summarize" then
      ([Ran "router" s1; Ran "synthesize" (synthesize_node s1)],
       inr (synthesize_node s1))
    else if String.eqb (route s1) "action" then
      ([Ran "router" s1; Ran "action" (action_node s1)],
       inr (action_node s1))
    else ([Ran "router" s1], inr s1).
Proof.
  intros Hlg s1. unfold run_graph_state, build_graph, ainvoke. rewrite Hlg.
  run_cbn.
  change (router_node (initial_state ctx query)) with s1. clearbody s1.
  unfold route_condition.
  destruct (String.eqb (route s1) "qa"); [by run_cbn |].
  destruct (String.eqb (route s1) "summarize"); [by run_cbn |].
  destruct (String.eqb (route s1) "action"); by run_cbn.
Qed.

(** [run_graph] logs what its branch logs; it repackages the state of the
    inline pipeline and fails on the dict of the compiled graph. *)
Lemma run_graph_of_state (ctx : Ctx) (query : string) :
  log (run_graph ctx query) = log (run_graph_state ctx query) /\
  outcome (run_graph ctx query) =
    match outcome (run_graph_state ctx query) with
    | inl e => inl e
    | inr state =>
        if langgraph_installed then inl (AttributeError "answer")
        else inr {| res_answer := answer state;
                    res_sources := sources state;
                    res_metadata := metadata state |}
    end.
Proof.
  unfold run_graph, log, outcome, build_graph.
  destruct (run_graph_state ctx query) as [t [e|st]]; [done |].
  destruct langgraph_installed; cbn; by rewrite app_nil_r.
Qed.

(** The events of a stream, by themselves. *)
Lemma run_graph_stream_events (ctx : Ctx) (query : string) :
  let s1 := router_node (initial_state ctx query) in
  let retr := Py.In_b (route s1) ["qa"; "summarize"] in
  let s2 := if retr then retrieve_node s1 else s1 in
  let s3 := if retr then synthesize_node s2 else action_node s2 in
  events (log (run_graph_stream ctx query)) =
    [event "routing" (Text "Analyzing your query...");
     event "route" (Text ("Route: " +:+ route s1))]
    ++ (if retr then
          [event "retrieving" (Text "Searching knowledge base...");
           event "sources" (Sources (sources s2))]
        else [])
    ++ [event "thinking" (Text "Generating answer...")]
    ++ ((fun chunk => event "answer" (Text chunk))
          <$> answer_chunks (Py.split (answer s3)))
    ++ [{| ev_type := "complete"; ev_content := Text (answer s3);
           ev_metadata := Some (metadata s3) |}].
Proof.
  intros s1 retr s2 s3. rewrite run_graph_stream_log. unfold log, events.
  cbn [fst]. fold s1. fold retr. fold s2. fold s3.
  rewrite !omap_app. f_equal. f_equal; [by destruct retr |].
  cbn [omap list_omap app]. f_equal. f_equal.
  generalize (answer_chunks (Py.split (answer s3))).
  intros cs. induction cs as [|c cs IH]; [done |]. cbn. by f_equal.
Qed.

(** The nodes of a stream and the states they left. *)
Lemma run_graph_stream_states (ctx : Ctx) (query : string) :
  let s1 := router_node (initial_state ctx query) in
  let retr := Py.In_b (route s1) ["qa"; "summarize"] in
  let s2 := if retr then retrieve_node s1 else s1 in
  let s3 := if retr then synthesize_node s2 else action_node s2 in
  states (log (run_graph_stream ctx query)) =
    (if retr then [s1; s2; s3] else [s1; s3]) /\
  nodes_run (log (run_graph_stream ctx query)) =
    (if retr then ["router"; "retrieve"; "synthesize"]
     else ["router"; "action"]).
Proof.
  intros s1 retr s2 s3. rewrite run_graph_stream_log. unfold log, states, nodes_run.
  cbn [fst]. fold s1. fold retr. fold s2. fold s3.
  rewrite !omap_app.
  assert (forall (B : Type) (f : obs -> option B) (cs : list string),
            (forall e, f (Yield e) = None) ->
            omap f (Yield ∘ (fun chunk => event "answer" (Text chunk)) <$> cs) = [])
    as Hnone.
  { intros B f cs Hf. induction cs as [|c cs IH]; [done |]. cbn. by rewrite Hf. }
  rewrite !Hnone by done. by destruct retr.
Qed.

Lemma of_type_cons (ty : string) (e : Event) (es : list Event) :
  of_type ty (e :: es) =
    if String.eqb (ev_type e) ty then e :: of_type ty es else of_type ty es.
Proof.
  unfold of_type. rewrite filter_cons.
  destruct (String.eqb_spec (ev_type e) ty) as [Heq|Hne].
  - by rewrite decide_True.
  - by rewrite decide_False.
Qed.

Lemma of_type_app (ty : string) (es1 es2 : list Event) :
  of_type ty (es1 ++ es2) = of_type ty es1 ++ of_type ty es2.
Proof. apply filter_app. Qed.

Lemma of_type_chunks (ty : string) (cs : list string) :
  of_type ty ((fun chunk => event "answer" (Text chunk)) <$> cs) =
    if String.eqb "answer" ty
    then (fun chunk => event "answer" (Text chunk)) <$> cs
    else [].
Proof.
  induction cs as [|c cs IH]; [by destruct (String.eqb _ _) |].
  cbn [fmap list_fmap]. rewrite of_type_cons, IH. cbn [ev_type event].
  by destruct (String.eqb "answer" ty).
Qed.

(** The events of each type a stream holds. *)
Lemma run_graph_stream_of_type (ctx : Ctx) (query : string) :
  let s1 := router_node (initial_state ctx query) in
  let retr := Py.In_b (route s1) ["qa"; "summarize"] in
  let s2 := if retr then retrieve_node s1 else s1 in
  let s3 := if retr then synthesize_node s2 else action_node s2 in
  let evs := events (log (run_graph_stream ctx query)) in
  of_type "answer" evs =
    ((fun chunk => event "answer" (Text chunk))
       <$> answer_chunks (Py.split (answer s3))) /\
  of_type "complete" evs =
    [{| ev_type := "complete"; ev_content := Text (answer s3);
        ev_metadata := Some (metadata s3) |}] /\
  of_type "sources" evs =
    (if retr then [event "sources" (Sources (sources s2))] else []).
Proof.
  intros s1 retr s2 s3 evs. subst evs. rewrite run_graph_stream_events.
  fold s1. fold retr. fold s2. fold s3. clearbody s3 s2. clearbody retr.
  rewrite !of_type_app, !of_type_chunks.
  destruct retr; repeat split;
    rewrite ?of_type_cons; cbn [ev_type event String.eqb Ascii.eqb Bool.eqb];
    unfold of_type; rewrite ?filter_nil, ?app_nil_r; reflexivity.
Qed.

Lemma run_graph_stream_final (ctx : Ctx) (query : string) :
  let s1 := router_node (initial_state ctx query) in
  let retr := Py.In_b (route s1) ["qa"; "summarize"] in
  let s2 := if retr then retrieve_node s1 else s1 in
  let s3 := if retr then synthesize_node s2 else action_node s2 in
  last (states (log (run_graph_stream ctx query))) = Some s3.
Proof.
  intros s1 retr s2 s3.
  destruct (run_graph_stream_states ctx query) as [-> _].
  fold s1. fold retr. by destruct retr.
Qed.

Lemma text_of_chunks (cs : list string) :
  text_of <$> ((fun chunk => event "answer" (Text chunk)) <$> cs) = cs.
Proof. rewrite <- list_fmap_compose. apply list_fmap_id. Qed.

Lemma ev_type_chunks (cs : list string) :
  ev_type <$> ((fun chunk => event "answer" (Text chunk)) <$> cs) =
    replicate (length cs) "answer".
Proof. induction cs as [|c cs IH]; [done | cbn; by f_equal]. Qed.

(** ** The stream *)

(** C3: whatever the input, the stream ends normally and its events come in
    the order routing, route, then retrieving and sources exactly when the
    route is qa or summarize, then thinking, then some answer events, then
    complete; the complete event is the last one and the only one. *)
Theorem stream_event_order (ctx : Ctx) (query : string) :
  let run := run_graph_stream ctx query in
  let evs := events (log run) in
  let r := route (router_node (initial_state ctx query)) in
  outcome run = inr tt /\
  (exists k,
     ev_type <$> evs =
       ["routing"; "route"]
       ++ (if Py.In_b r ["qa"; "summarize"]
           then ["retrieving"; "sources"] else [])
       ++ ["thinking"] ++ replicate k "answer" ++ ["complete"]) /\
  evs !! 1 = Some (event "route" (Text ("Route: " +:+ r))) /\
  (exists c, last evs = Some c /\ ev_type c = "complete") /\
  length (of_type "complete" evs) = 1.
Proof.
  intros run evs r. subst run evs r. repeat split.
  - by rewrite run_graph_stream_log.
  - rewrite run_graph_stream_events.
    exists (length (answer_chunks (Py.split (answer
      (if Py.In_b (route (router_node (initial_state ctx query)))
            ["qa"; "summarize"]
       then synthesize_node (retrieve_node (router_node (initial_state ctx query)))
       else action_node (router_node (initial_state ctx query))))))).
    by destruct (Py.In_b _ _); rewrite !fmap_app, ev_type_chunks.
  - by rewrite run_graph_stream_events.
  - rewrite run_graph_stream_events. eexists. rewrite !app_assoc.
    split; [apply last_snoc | done].
  - by destruct (run_graph_stream_of_type ctx query) as (_ & -> & _).
Qed.

(** C4, as the code has it: the answer events carry the whitespace-separated
    words of the final answer in groups of exactly five, the last group
    holding one to five, in left-to-right order; joined with single spaces
    they give the words of the answer joined with single spaces, which is
    the answer carried by the complete event exactly when that answer
    already has this form; twelve words come as three events of 5, 5 and 2
    words. *)
Theorem stream_answer_chunks (ctx : Ctx) (query : string) (st : GraphState) :
  let evs := events (log (run_graph_stream ctx query)) in
  let contents := text_of <$> of_type "answer" evs in
  let words := Py.split (answer st) in
  last (states (log (run_graph_stream ctx query))) = Some st ->
  text_of <$> of_type "complete" evs = [answer st] /\
  five_grouped (word_count <$> contents) /\
  mjoin (Py.split <$> contents) = words /\
  Py.join " " contents = Py.join " " words /\
  (Py.join " " contents = answer st <-> answer st = Py.join " " words) /\
  (length words = 12 -> word_count <$> contents = [5; 5; 2]).
Proof.
  intros evs contents words Hlast. subst evs contents words.
  pose proof (run_graph_stream_final ctx query) as Hfin. cbv zeta in Hfin.
  rewrite Hlast in Hfin. apply (inj Some) in Hfin.
  destruct (run_graph_stream_of_type ctx query) as (-> & -> & _).
  rewrite <- Hfin, text_of_chunks. clear Hfin.
  pose proof (split_words (answer st)) as Hws.
  repeat split.
  - rewrite word_count_chunks by done. apply groups_five.
  - by apply split_chunks.
  - apply join_chunks.
  - rewrite join_chunks. intros H. by symmetry.
  - rewrite join_chunks. intros H. by symmetry.
  - intros Hlen. rewrite word_count_chunks by done.
    generalize dependent (Py.split (answer st)). intros ws _ Hlen.
    do 13 (destruct ws as [|? ws]; [discriminate Hlen || reflexivity |]).
    discriminate Hlen.
Qed.

(** C10: when the terminal node leaves an answer that is empty or only
    whitespace, the stream holds no answer event and exactly one complete
    event, whose content is that answer. *)
Theorem stream_blank_answer (ctx : Ctx) (query : string) (st : GraphState) :
  let evs := events (log (run_graph_stream ctx query)) in
  last (states (log (run_graph_stream ctx query))) = Some st ->
  Py.blank (answer st) = true ->
  of_type "answer" evs = [] /\
  of_type "complete" evs =
    [{| ev_type := "complete"; ev_content := Text (answer st);
        ev_metadata := Some (metadata st) |}].
Proof.
  intros evs Hlast Hblank. subst evs.
  pose proof (run_graph_stream_final ctx query) as Hfin. cbv zeta in Hfin.
  rewrite Hlast in Hfin. apply (inj Some) in Hfin.
  destruct (run_graph_stream_of_type ctx query) as (-> & -> & _).
  rewrite <- Hfin. split; [| done].
  by rewrite split_blank.
Qed.

(** ** The Router *)

(** ** Retrieval *)

(** C9: the Retrieve node leaves the same two documents, doc1 with score
    0.95 and doc2 with score 0.87, and the same citations, whatever state it
    is given; the citations a stream shows are these, for every tenant and
    query that is routed to retrieval. *)
Theorem retrieve_node_ignores_tenant (st1 st2 : GraphState)
    (ctx : Ctx) (query : string) :
  retrieved_docs (retrieve_node st1) = retrieved_docs (retrieve_node st2) /\
  sources (retrieve_node st1) = sources (retrieve_node st2) /\
  retrieved_docs (retrieve_node st1) = mock_docs /\
  (fun d => (doc_id d, doc_score d)) <$> retrieved_docs (retrieve_node st1) =
    [("doc1", (95 # 100)%Q); ("doc2", (87 # 100)%Q)] /\
  sources (retrieve_node st1) =
    [{| src_id := "doc1"; src_source := "docs"; src_score := (95 # 100)%Q |};
     {| src_id := "doc2"; src_source := "docs"; src_score := (87 # 100)%Q |}] /\
  observed_sources (events (log (run_graph_stream ctx query))) =
    (if Py.In_b (route (router_node (initial_state ctx query)))
          ["qa"; "summarize"]
     then sources (retrieve_node st1) else []).
Proof.
  repeat split. unfold observed_sources.
  destruct (run_graph_stream_of_type ctx query) as (_ & _ & ->).
  by destruct (Py.In_b _ _).
Qed.

(** C6: in the initial state and in every state a node leaves, in batch
    mode and in streaming mode, documents and citations are both empty or
    are index-aligned, each citation carrying the id, source and score of
    its document. *)
Theorem docs_and_sources_together (ctx : Ctx) (query : string)
    (st : GraphState) :
  st = initial_state ctx query \/
  st ∈ states (log (run_graph ctx query)) \/
  st ∈ states (log (run_graph_stream ctx query)) ->
  docs_sources_inv st.
Proof.
  set (s0 := initial_state ctx query).
  set (s1 := router_node s0).
  assert (docs_sources_inv s0) as H0 by (by left).
  assert (docs_sources_inv s1) as H1 by (by left).
  assert (docs_sources_inv (retrieve_node s1)) as H2
    by apply retrieve_node_inv.
  assert (docs_sources_inv (synthesize_node (retrieve_node s1))) as H3
    by (by eapply docs_sources_inv_keep; [| | exact H2]).
  assert (docs_sources_inv (synthesize_node s1)) as H4 by (by left).
  assert (docs_sources_inv (action_node s1)) as H5 by (by left).
  intros [-> | [Hin | Hin]]; [done | |].
  - destruct (run_graph_of_state ctx query) as [Hlog _].
    rewrite Hlog in Hin. clear Hlog. revert Hin.
    destruct langgraph_installed eqn:Hlg.
    + rewrite run_graph_state_langgraph by done. fold s0. fold s1.
      repeat destruct (String.eqb _ _); cbn; intros Hin; in_cases Hin.
    + rewrite run_graph_state_fallback by done. fold s0. fold s1.
      destruct (Py.In_b _ _); cbn; intros Hin; in_cases Hin.
  - revert Hin. destruct (run_graph_stream_states ctx query) as [-> _].
    fold s0. fold s1.
    destruct (Py.In_b _ _); intros Hin; in_cases Hin.
Qed.

(** ** Routes and the nodes they run *)

Lemma In_b_action : Py.In_b "action" ["qa"; "summarize"] = false.
Proof. reflexivity. Qed.

Lemma In_b_summarize : Py.In_b "summarize" ["qa"; "summarize"] = true.
Proof. reflexivity. Qed.

(** C7: when the Router assigns action, the engine runs the Router and then
    the Action node only, in the inline pipeline, in the compiled graph and
    in the stream; the final state has no documents and no citations,
    metadata["action_taken"] is "simulated", and the answer is the one the
    Action node got from its Completion call; the inline pipeline returns
    that state's answer, citations and metadata. *)
Theorem action_route_runs_action_only (ctx : Ctx) (query : string) :
  let s1 := router_node (initial_state ctx query) in
  let final := action_node s1 in
  route s1 = "action" ->
  run_graph_state ctx query = ([Ran "router" s1; Ran "action" final], inr final) /\
  nodes_run (log (run_graph ctx query)) = ["router"; "action"] /\
  last (states (log (run_graph ctx query))) = Some final /\
  (langgraph_installed = false ->
   outcome (run_graph ctx query) =
     inr {| res_answer := answer final; res_sources := [];
            res_metadata := metadata final |}) /\
  nodes_run (log (run_graph_stream ctx query)) = ["router"; "action"] /\
  last (states (log (run_graph_stream ctx query))) = Some final /\
  observed_sources (events (log (run_graph_stream ctx query))) = [] /\
  retrieved_docs final = [] /\
  sources final = [] /\
  metadata final !! "action_taken" = Some "simulated" /\
  answer final =
    completion llm action_system (action_prompt s1) (kwargs_max_tokens 300).
Proof.
  intros s1 final Hroute.
  assert (run_graph_state ctx query =
            ([Ran "router" s1; Ran "action" final], inr final)) as Hrun.
  { destruct langgraph_installed eqn:Hlg.
    - rewrite run_graph_state_langgraph by done. fold s1. by rewrite Hroute.
    - rewrite run_graph_state_fallback by done. fold s1.
      by rewrite Hroute, In_b_action. }
  destruct (run_graph_of_state ctx query) as [Hlog Hout].
  rewrite Hlog, Hout, Hrun.
  pose proof (run_graph_stream_final ctx query) as Hfin.
  destruct (run_graph_stream_states ctx query) as [_ Hnodes].
  destruct (run_graph_stream_of_type ctx query) as (_ & _ & Hsrc).
  cbv zeta in Hfin, Hnodes, Hsrc. fold s1 in Hfin, Hnodes, Hsrc.
  rewrite Hroute, In_b_action in Hfin, Hnodes, Hsrc.
  unfold observed_sources. rewrite Hnodes, Hfin, Hsrc.
  repeat split. by intros ->.
Qed.

(** On the inline pipeline and in the stream, a summarize route goes
    through retrieval before synthesis. *)
Lemma summarize_route_retrieves (ctx : Ctx) (query : string) :
  let s1 := router_node (initial_state ctx query) in
  let final := synthesize_node (retrieve_node s1) in
  route s1 = "summarize" ->
  (langgraph_installed = false ->
   run_graph_state ctx query =
     ([Ran "router" s1; Ran "retrieve" (retrieve_node s1);
       Ran "synthesize" final], inr final)) /\
  nodes_run (log (run_graph_stream ctx query)) =
    ["router"; "retrieve"; "synthesize"] /\
  last (states (log (run_graph_stream ctx query))) = Some final /\
  retrieved_docs final = mock_docs /\
  sources final = source_of <$> mock_docs.
Proof.
  intros s1 final Hroute.
  pose proof (run_graph_stream_final ctx query) as Hfin.
  destruct (run_graph_stream_states ctx query) as [_ Hnodes].
  cbv zeta in Hfin, Hnodes. fold s1 in Hfin, Hnodes.
  rewrite Hroute, In_b_summarize in Hfin, Hnodes.
  repeat split; [| done | done].
  intros Hlg. rewrite run_graph_state_fallback by done. fold s1.
  by rewrite Hroute, In_b_summarize.
Qed.

(** Under LangGraph the same route goes from the Router straight to
    synthesis. *)
Lemma summarize_route_langgraph (ctx : Ctx) (query : string) :
  let s1 := router_node (initial_state ctx query) in
  route s1 = "summarize" ->
  langgraph_installed = true ->
  run_graph_state ctx query =
    ([Ran "router" s1; Ran "synthesize" (synthesize_node s1)],
     inr (synthesize_node s1)).
Proof.
  intros s1 Hroute Hlg. rewrite run_graph_state_langgraph by done.
  fold s1. by rewrite Hroute.
Qed.

(** Without LangGraph, what batch mode returns is what a consumer of the
    stream assembles. *)
Lemma batch_stream_agree_fallback (ctx : Ctx) (query : string) :
  langgraph_installed = false ->
  exists r, outcome (run_graph ctx query) = inr r /\
            stream_view (events (log (run_graph_stream ctx query))) = Some r.
Proof.
  intros Hlg. destruct (run_graph_of_state ctx query) as [_ Hout].
  rewrite Hout, run_graph_state_fallback, Hlg by done. clear Hout.
  unfold stream_view, observed_sources.
  destruct (run_graph_stream_of_type ctx query) as (_ & -> & ->).
  destruct (Py.In_b _ _); eexists; (split; [reflexivity |]);
    cbn [outcome snd text_of ev_content ev_metadata default from_option id];
    f_equal.
Qed.

(** ** Provider failures *)

Lemma completion_dispatch (self : LLMProvider) (system user : string)
    (kwargs : Kwargs) :
  completion self system user kwargs =
    if String.eqb (provider self) "anthropic"
    then _anthropic_completion self system user kwargs
    else _openai_completion self system user kwargs.
Proof.
  unfold completion.
  destruct (String.eqb_spec (provider self) "openai") as [->|_]; [done |].
  by destruct (String.eqb (provider self) "anthropic").
Qed.

(** The branch of batch mode always ends normally, in the state a terminal
    node left. *)
Lemma run_graph_state_returns (ctx : Ctx) (query : string) :
  exists final,
    outcome (run_graph_state ctx query) = inr final /\
    (exists st, final = synthesize_node st \/ final = action_node st).
Proof.
  pose proof (router_node_valid (initial_state ctx query)) as Hvalid.
  destruct langgraph_installed eqn:Hlg.
  - rewrite run_graph_state_langgraph by done.
    destruct (String.eqb_spec (route (router_node (initial_state ctx query))) "qa");
      [eexists; split; [reflexivity | eauto] |].
    destruct (String.eqb_spec (route (router_node (initial_state ctx query))) "summarize");
      [eexists; split; [reflexivity | eauto] |].
    destruct (String.eqb_spec (route (router_node (initial_state ctx query))) "action");
      [eexists; split; [reflexivity | eauto] |].
    repeat (apply elem_of_cons in Hvalid as [Heq | Hvalid]; [congruence |]).
    by apply elem_of_nil in Hvalid.
  - rewrite run_graph_state_fallback by done.
    destruct (Py.In_b _ _); eexists; (split; [reflexivity | eauto]).
Qed.

(** What batch mode makes of that state: the inline pipeline returns its
    answer, citations and metadata; under LangGraph the state is the dict
    [ainvoke] returned, and reading [state.answer] raises. *)
Lemma run_graph_outcome (ctx : Ctx) (query : string) :
  exists final,
    outcome (run_graph_state ctx query) = inr final /\
    (exists st, final = synthesize_node st \/ final = action_node st) /\
    outcome (run_graph ctx query) =
      if langgraph_installed then inl (AttributeError "answer")
      else inr {| res_answer := answer final; res_sources := sources final;
                  res_metadata := metadata final |}.
Proof.
  destruct (run_graph_state_returns ctx query) as (final & Hstate & Hterm).
  exists final. split; [done |]. split; [done |].
  destruct (run_graph_of_state ctx query) as [_ ->]. by rewrite Hstate.
Qed.

(** C8: an exception inside either vendor call is caught where the call is
    made and turned into the text "Error calling <vendor>: <message>", which
    is what [completion] returns; the Synthesize and Action nodes store what
    [completion] returns as the answer; no provider failure aborts a run:
    the nodes of batch mode always run to the end, the inline pipeline
    returns a result, the stream ends with its complete event, and the only
    failure batch mode has at all is the attribute read under LangGraph,
    which no provider causes; with the provider down the error text is the
    answer of the final state, of the inline result and of the stream. *)
Theorem provider_failure_degrades_to_text :
  (forall self system user kwargs msg,
     openai_create (openai_request system user kwargs) = Raised msg ->
     _openai_completion self system user kwargs =
       "Error calling OpenAI: " +:+ msg) /\
  (forall self system user kwargs msg,
     anthropic_create (anthropic_request system user kwargs) = Raised msg ->
     _anthropic_completion self system user kwargs =
       "Error calling Anthropic: " +:+ msg) /\
  (forall self system user kwargs,
     completion self system user kwargs =
       if String.eqb (provider self) "anthropic"
       then _anthropic_completion self system user kwargs
       else _openai_completion self system user kwargs) /\
  (forall state,
     answer (synthesize_node state) =
       completion llm synthesize_system (synthesize_prompt state)
         (kwargs_max_tokens 500)) /\
  (forall state,
     answer (action_node state) =
       completion llm action_system (action_prompt state)
         (kwargs_max_tokens 300)) /\
  (forall ctx query,
     exists final, outcome (run_graph_state ctx query) = inr final) /\
  (forall ctx query e,
     outcome (run_graph ctx query) = inl e ->
     langgraph_installed = true /\ e = AttributeError "answer") /\
  (langgraph_installed = false ->
   forall ctx query, exists r, outcome (run_graph ctx query) = inr r) /\
  (forall ctx query, outcome (run_graph_stream ctx query) = inr tt) /\
  (forall msg,
     (forall req, openai_create req = Raised msg) ->
     (forall req, anthropic_create req = Raised msg) ->
     let err :=
       (if String.eqb (provider llm) "anthropic"
        then "Error calling Anthropic: " else "Error calling OpenAI: ")
       +:+ msg in
     forall ctx query,
       (exists final, outcome (run_graph_state ctx query) = inr final /\
                      answer final = err) /\
       (langgraph_installed = false ->
        exists r, outcome (run_graph ctx query) = inr r /\ res_answer r = err) /\
       text_of <$> of_type "complete" (events (log (run_graph_stream ctx query)))
         = [err]).
Proof.
  split; [intros self system user kwargs msg H;
          unfold _openai_completion; by rewrite H |].
  split; [intros self system user kwargs msg H;
          unfold _anthropic_completion; by rewrite H |].
  split; [apply completion_dispatch |].
  split; [done |]. split; [done |].
  split; [intros ctx query;
          destruct (run_graph_state_returns ctx query) as (final & H & _);
          eauto |].
  split; [intros ctx query e;
          destruct (run_graph_outcome ctx query) as (final & _ & _ & ->);
          destruct langgraph_installed; [by intros [= <-] | done] |].
  split; [intros Hlg ctx query;
          destruct (run_graph_outcome ctx query) as (final & _ & _ & H);
          rewrite Hlg in H; eauto |].
  split; [intros ctx query; by rewrite run_graph_stream_log |].
  intros msg Ho Ha err ctx query.
  assert (forall system user kwargs, completion llm system user kwargs = err)
    as Hdown.
  { intros system user kwargs. rewrite completion_dispatch. subst err.
    unfold _anthropic_completion, _openai_completion. rewrite Ho, Ha.
    by destruct (String.eqb _ _). }
  destruct (run_graph_outcome ctx query)
    as (final & Hstate & (st & Hterm) & Hout).
  assert (answer final = err) as Hanswer
    by (destruct Hterm as [-> | ->]; apply Hdown).
  split; [eauto |]. split.
  - intros Hlg. rewrite Hlg in Hout. eexists. split; [exact Hout | done].
  - destruct (run_graph_stream_of_type ctx query) as (_ & -> & _).
    cbn [fmap list_fmap text_of ev_content].
    destruct (Py.In_b _ _); f_equal; apply Hdown.
Qed.

(** * Further properties of the code *)

(** ** Trimming and lower-casing *)

Section Trim.

Import Py.

Lemma rev_app_app (s t : string) : String.rev_app s t = String.rev s +:+ t.
Proof.
  unfold String.rev. revert t. induction s as [|c s IH]; intros t; [done |].
  cbn [String.rev_app]. rewrite IH, (IH (String c "")).
  by rewrite string_app_assoc.
Qed.

Lemma rev_cons (c : ascii) (s : string) :
  String.rev (String c s) = String.rev s +:+ String c "".
Proof. unfold String.rev at 1. cbn [String.rev_app]. apply rev_app_app. Qed.

Lemma rev_app (s t : string) :
  String.rev (s +:+ t) = String.rev t +:+ String.rev s.
Proof.
  induction s as [|c s IH].
  - by rewrite string_app_nil_l, string_app_nil_r.
  - by rewrite string_app_cons, !rev_cons, IH, string_app_assoc.
Qed.

Lemma rev_involutive (s : string) : String.rev (String.rev s) = s.
Proof.
  induction s as [|c s IH]; [done |].
  by rewrite rev_cons, rev_app, IH.
Qed.

Lemma blank_app (s t : string) : blank (s +:+ t) = blank s && blank t.
Proof.
  induction s as [|c s IH]; [done |].
  rewrite string_app_cons. simpl. rewrite IH. by destruct (py_isspace c).
Qed.

Lemma blank_rev (s : string) : blank (String.rev s) = blank s.
Proof.
  induction s as [|c s IH]; [done |].
  rewrite rev_cons, blank_app, IH. simpl.
  by destruct (py_isspace c), (blank s).
Qed.

Lemma spaceless_rev (s : string) : spaceless (String.rev s) = spaceless s.
Proof.
  induction s as [|c s IH]; [done |].
  rewrite rev_cons, spaceless_app, IH. simpl.
  by destruct (py_isspace c), (spaceless s).
Qed.

Lemma lstrip_blank_app (pre s : string) :
  blank pre = true -> lstrip (pre +:+ s) = lstrip s.
Proof.
  induction pre as [|c pre IH]; intros Hb; [done |].
  simpl in Hb. apply andb_prop in Hb as [Hc Hpre].
  rewrite string_app_cons. simpl. rewrite Hc. by apply IH.
Qed.

Lemma lstrip_word_app (w s : string) :
  is_word w -> lstrip (w +:+ s) = w +:+ s.
Proof.
  intros [Hne Hw]. destruct w as [|c w]; [done |].
  simpl in Hw. apply andb_prop in Hw as [Hc _]. apply negb_true_iff in Hc.
  rewrite string_app_cons. simpl. by rewrite Hc.
Qed.

Lemma rstrip_app_blank (s post : string) :
  blank post = true -> rstrip (s +:+ post) = rstrip s.
Proof.
  intros Hb. unfold rstrip.
  by rewrite rev_app, lstrip_blank_app by (by rewrite blank_rev).
Qed.

Lemma rstrip_word (w : string) : is_word w -> rstrip w = w.
Proof.
  intros [Hne Hw]. unfold rstrip.
  assert (is_word (String.rev w)) as Hrev.
  { split; [| by rewrite spaceless_rev].
    intros Hnil. apply Hne. by rewrite <- (rev_involutive w), Hnil. }
  rewrite <- (string_app_nil_r (String.rev w)), lstrip_word_app by done.
  by rewrite string_app_nil_r, rev_involutive.
Qed.

(** [strip] takes off whitespace on both sides of a word. *)
Lemma strip_padded_word (pre w post : string) :
  blank pre = true -> blank post = true -> is_word w ->
  strip (pre +:+ w +:+ post) = w.
Proof.
  intros Hpre Hpost Hw. unfold strip.
  rewrite lstrip_blank_app, lstrip_word_app by done.
  rewrite rstrip_app_blank by done. by apply rstrip_word.
Qed.

(** After [lstrip], a text ending in a visible character still ends in it. *)
Lemma lstrip_snoc (s : string) (c : ascii) :
  py_isspace c = false ->
  exists t, lstrip (s +:+ String c "") = t +:+ String c "".
Proof.
  intros Hc. induction s as [|d s [t IH]].
  - exists "". rewrite string_app_nil_l. simpl. by rewrite Hc.
  - rewrite string_app_cons. simpl. destruct (py_isspace d).
    + by exists t.
    + exists (String d s). by rewrite string_app_cons.
Qed.

(** [strip] keeps the first character of a text that starts with a visible
    one. *)
Lemma strip_head (c : ascii) (s : string) :
  py_isspace c = false -> exists t, strip (String c s) = String c t.
Proof.
  intros Hc. unfold strip. simpl. rewrite Hc. unfold rstrip.
  rewrite rev_cons. destruct (lstrip_snoc (String.rev s) c Hc) as [t ->].
  exists (String.rev t). by rewrite rev_app.
Qed.

End Trim.

(** ** More on the Router *)

(** Membership of a text in a list of other texts is absurd. *)
Ltac not_in_cases H :=
  cbn [Py.lower] in H;
  repeat (apply elem_of_cons in H as [?Heq | H]; [discriminate |]);
  apply elem_of_nil in H.

Lemma router_node_metadata (state : GraphState) :
  metadata (router_node state) =
    <["route" := route (router_node state)]> (metadata state).
Proof. reflexivity. Qed.

(** X1: the Router reads the label through surrounding whitespace and in
    any letter case: a reply made of whitespace, one word and whitespace is
    routed to the lower-cased word whenever that is one of the three
    labels. *)
Theorem router_node_accepts_padded_label (state : GraphState)
    (pre w post : string) :
  completion llm router_system (query state) (kwargs_max_tokens 50)
    = pre +:+ w +:+ post ->
  Py.blank pre = true -> Py.blank post = true -> Py.spaceless w = true ->
  Py.lower w ∈ ["qa"; "summarize"; "action"] ->
  route (router_node state) = Py.lower w.
Proof.
  intros Htext Hpre Hpost Hw Hlabel.
  assert (Py.is_word w) as Hword.
  { split; [| done]. intros ->. by not_in_cases Hlabel. }
  rewrite router_node_route. cbv zeta.
  rewrite Htext, strip_padded_word by done.
  by apply In_b_spec in Hlabel as ->.
Qed.

Lemma letter_variant_lower (c l : ascii) :
  lower_letter l = true -> c = l \/ c = upper_of l ->
  Py.py_lower c = l /\ Py.py_isspace c = false.
Proof.
  intros Hl Hc.
  destruct l as [[] [] [] [] [] [] [] []]; vm_compute in Hl;
    try discriminate Hl; destruct Hc as [-> | ->]; by vm_compute.
Qed.

Lemma lower_letter_variant (c l : ascii) :
  Py.py_lower c = l -> lower_letter l = true -> c = l \/ c = upper_of l.
Proof.
  intros <- Hl.
  destruct c as [[] [] [] [] [] [] [] []]; vm_compute in Hl;
    try discriminate Hl; vm_compute; auto.
Qed.

Lemma case_variant_lower (w label : string) :
  case_variant w label -> Py.lower w = label /\ Py.spaceless w = true.
Proof.
  revert label. induction w as [|c w IH]; intros [|l label] Hv;
    try done.
  cbn [case_variant] in Hv. destruct Hv as (Hl & Hc & Hv).
  destruct (letter_variant_lower c l Hl Hc) as [Hlow Hsp].
  destruct (IH label Hv) as [<- Hw].
  cbn [Py.lower Py.spaceless]. by rewrite Hlow, Hsp, Hw.
Qed.

Lemma lower_case_variant (w label : string) :
  Py.lower w = label -> lower_word label = true -> case_variant w label.
Proof.
  revert label. induction w as [|c w IH]; intros [|l label] Hlow Hword;
    try done.
  cbn [Py.lower] in Hlow. injection Hlow as Hc Hw.
  cbn [lower_word] in Hword. apply andb_prop in Hword as [Hl Hword].
  cbn [case_variant]. split; [done |].
  split; [by apply lower_letter_variant | by apply IH].
Qed.

(** What [strip] takes off is whitespace, on either side. *)
Lemma lstrip_decompose (s : string) :
  exists pre, s = pre +:+ Py.lstrip s /\ Py.blank pre = true.
Proof.
  induction s as [|c s (pre & Hs & Hpre)]; [by exists "" |].
  cbn [Py.lstrip]. destruct (Py.py_isspace c) eqn:Hc; [| by exists ""].
  exists (String c pre). rewrite string_app_cons, <- Hs. split; [done |].
  cbn [Py.blank]. by rewrite Hc, Hpre.
Qed.

Lemma strip_decompose (s : string) :
  exists pre post,
    s = pre +:+ Py.strip s +:+ post /\
    Py.blank pre = true /\ Py.blank post = true.
Proof.
  destruct (lstrip_decompose s) as (pre & Hs & Hpre).
  destruct (lstrip_decompose (String.rev (Py.lstrip s))) as (tsop & Hr & Hpost).
  exists pre, (String.rev tsop). split; [| split; [done |]].
  - unfold Py.strip, Py.rstrip. rewrite <- rev_app, <- Hr, rev_involutive.
    exact Hs.
  - by rewrite blank_rev.
Qed.

Lemma labels_lower_words (label : string) :
  label ∈ ["qa"; "summarize"; "action"] ->
  lower_word label = true /\ label <> "".
Proof. intros Hin. by in_cases Hin. Qed.

(** C5: whatever text the Completion returns, the Router trims and
    lower-cases it, keeps it when it is one of the three labels and takes qa
    otherwise; so the route it leaves is one of qa, summarize, action, and
    metadata["route"] holds that same route. Put without the code's own
    helpers: a reply that reads as a label, in any letter case and with
    whitespace around it, is routed to that label, and a reply that reads
    as none of the three is routed to qa. *)
Theorem router_node_defaults_to_qa (state : GraphState) :
  let text := completion llm router_system (query state) (kwargs_max_tokens 50) in
  let label := Py.lower (Py.strip text) in
  let state' := router_node state in
  route state' =
    (if Py.In_b label ["qa"; "summarize"; "action"] then label else "qa") /\
  route state' ∈ ["qa"; "summarize"; "action"] /\
  metadata state' !! "route" = Some (route state') /\
  (forall l, l ∈ ["qa"; "summarize"; "action"] -> reads_as text l ->
             route state' = l) /\
  ((forall l, l ∈ ["qa"; "summarize"; "action"] -> ~ reads_as text l) ->
   route state' = "qa").
Proof.
  cbv zeta. split; [apply router_node_route |].
  split; [apply router_node_valid |].
  split; [unfold router_node; cbn [route metadata set_route set_metadata_item];
          apply lookup_insert_eq |].
  rewrite router_node_route. cbv zeta.
  generalize (completion llm router_system (query state) (kwargs_max_tokens 50)).
  intros text. split.
  - intros l Hl (pre & w & post & -> & Hpre & Hpost & Hv).
    destruct (case_variant_lower w l Hv) as [Hlow Hsp].
    destruct (labels_lower_words l Hl) as [_ Hne].
    assert (Py.is_word w) as Hword.
    { split; [| done]. intros ->. by destruct l. }
    rewrite strip_padded_word, Hlow by done.
    by apply In_b_spec in Hl as ->.
  - intros Hnone.
    destruct (Py.In_b (Py.lower (Py.strip text)) _) eqn:Hin; [| done].
    apply In_b_spec in Hin. exfalso.
    apply (Hnone _ Hin).
    destruct (strip_decompose text) as (pre & post & Htext & Hpre & Hpost).
    exists pre, (Py.strip text), post. repeat split; try done.
    apply lower_case_variant; [done |].
    by apply labels_lower_words.
Qed.

Lemma In_b_qa : Py.In_b "qa" ["qa"; "summarize"] = true.
Proof. reflexivity. Qed.

(** A text that starts with a visible character other than q, s or a (in
    either case) is no label. *)
Lemma error_text_defaults (vendor_text msg : string) :
  vendor_text = "Error calling Anthropic: " \/
  vendor_text = "Error calling OpenAI: " ->
  Py.In_b (Py.lower (Py.strip (vendor_text +:+ msg)))
    ["qa"; "summarize"; "action"] = false.
Proof.
  intros Hv.
  assert (exists t, Py.strip (vendor_text +:+ msg) = String "E" t) as [t ->].
  { destruct Hv as [-> | ->]; by apply strip_head. }
  apply bool_decide_eq_false. intros Hin. by not_in_cases Hin.
Qed.

Lemma completion_down (msg : string) :
  (forall req, openai_create req = Raised msg) ->
  (forall req, anthropic_create req = Raised msg) ->
  forall system user kwargs,
    completion llm system user kwargs =
      (if String.eqb (provider llm) "anthropic"
       then "Error calling Anthropic: " else "Error calling OpenAI: ")
      +:+ msg.
Proof.
  intros Ho Ha system user kwargs. rewrite completion_dispatch.
  unfold _anthropic_completion, _openai_completion. rewrite Ho, Ha.
  by destruct (String.eqb _ _).
Qed.

(** X2: with the provider down, the Router's own call fails too, its error
    text is no label, and so every query is routed to qa: batch mode (with
    or without LangGraph) and the stream run router, retrieve, synthesize
    and leave the error text as the answer, with the two citations and
    metadata {route: qa}; the inline pipeline returns these and the stream
    shows them. *)
Theorem provider_down_runs_qa (msg : string) (ctx : Ctx) (query : string) :
  (forall req, openai_create req = Raised msg) ->
  (forall req, anthropic_create req = Raised msg) ->
  let err :=
    (if String.eqb (provider llm) "anthropic"
     then "Error calling Anthropic: " else "Error calling OpenAI: ")
    +:+ msg in
  let result :=
    {| res_answer := err; res_sources := source_of <$> mock_docs;
       res_metadata := <["route" := "qa"]> ∅ |} in
  route (router_node (initial_state ctx query)) = "qa" /\
  nodes_run (log (run_graph ctx query))
    = ["router"; "retrieve"; "synthesize"] /\
  (exists final,
     outcome (run_graph_state ctx query) = inr final /\
     answer final = err /\ sources final = source_of <$> mock_docs /\
     metadata final = <["route" := "qa"]> ∅) /\
  (langgraph_installed = false ->
   outcome (run_graph ctx query) = inr result) /\
  nodes_run (log (run_graph_stream ctx query))
    = ["router"; "retrieve"; "synthesize"] /\
  stream_view (events (log (run_graph_stream ctx query))) = Some result.
Proof.
  intros Ho Ha err result.
  pose proof (completion_down msg Ho Ha) as Hdown. fold err in Hdown.
  set (s1 := router_node (initial_state ctx query)).
  assert (route s1 = "qa") as Hroute.
  { unfold s1. rewrite router_node_route. cbv zeta. rewrite Hdown.
    unfold err. rewrite error_text_defaults; [done |].
    destruct (String.eqb _ _); auto. }
  assert (metadata s1 = <["route" := "qa"]> ∅) as Hmeta.
  { unfold s1. rewrite router_node_metadata. fold s1. by rewrite Hroute. }
  assert (run_graph_state ctx query =
            ([Ran "router" s1; Ran "retrieve" (retrieve_node s1);
              Ran "synthesize" (synthesize_node (retrieve_node s1))],
             inr (synthesize_node (retrieve_node s1)))) as Hrun.
  { destruct langgraph_installed eqn:Hlg.
    - rewrite run_graph_state_langgraph by done. fold s1. by rewrite Hroute.
    - rewrite run_graph_state_fallback by done. fold s1.
      by rewrite Hroute, In_b_qa. }
  assert (answer (synthesize_node (retrieve_node s1)) = err) as Hanswer
    by apply Hdown.
  assert (metadata (synthesize_node (retrieve_node s1)) = <["route" := "qa"]> ∅)
    as Hmeta' by exact Hmeta.
  destruct (run_graph_of_state ctx query) as [Hlog Hout].
  rewrite Hlog, Hout, Hrun.
  destruct (run_graph_stream_states ctx query) as [_ Hnodes].
  destruct (run_graph_stream_of_type ctx query) as (_ & Hcomplete & Hsrc).
  cbv zeta in Hnodes, Hcomplete, Hsrc. fold s1 in Hnodes, Hcomplete, Hsrc.
  rewrite Hroute, In_b_qa in Hnodes, Hcomplete, Hsrc.
  unfold stream_view, observed_sources. rewrite Hnodes, Hcomplete, Hsrc.
  unfold result. cbn [outcome snd text_of ev_content ev_metadata default
                      from_option id fmap list_fmap mjoin list_join app].
  rewrite Hmeta', Hanswer.
  split; [exact Hroute |]. split; [done |].
  split; [by eexists |]. split; [by intros -> |]. split; done.
Qed.

(** ** What every run keeps *)

(** An element is in a list that is written out. *)
Ltac in_list :=
  repeat first [apply list_elem_of_here | apply list_elem_of_further].

(** The states a run can log, in batch mode or in the stream. *)
Lemma run_states_cases (ctx : Ctx) (query : string) (st : GraphState) :
  let s1 := router_node (initial_state ctx query) in
  st ∈ states (log (run_graph ctx query)) \/
  st ∈ states (log (run_graph_stream ctx query)) ->
  st ∈ [s1; retrieve_node s1; synthesize_node (retrieve_node s1);
        synthesize_node s1; action_node s1].
Proof.
  intros s1 [Hin | Hin]; revert Hin.
  - destruct (run_graph_of_state ctx query) as [-> _].
    destruct langgraph_installed eqn:Hlg.
    + rewrite run_graph_state_langgraph by done. fold s1.
      repeat destruct (String.eqb _ _); cbn; intros Hin; in_cases Hin;
        in_list.
    + rewrite run_graph_state_fallback by done. fold s1.
      destruct (Py.In_b _ _); cbn; intros Hin; in_cases Hin; in_list.
  - destruct (run_graph_stream_states ctx query) as [-> _]. fold s1.
    destruct (Py.In_b _ _); intros Hin; in_cases Hin; in_list.
Qed.

(** X3: no node touches what the caller supplied: every state a run logs,
    in batch mode or in the stream, still has the org_id, conversation_id,
    query and tools of the initial state. *)
Theorem run_keeps_caller_fields (ctx : Ctx) (q : string) (st : GraphState) :
  st ∈ states (log (run_graph ctx q)) \/
  st ∈ states (log (run_graph_stream ctx q)) ->
  org_id st = ctx_org_id ctx /\
  conversation_id st = ctx_conversation_id ctx /\
  query st = q /\
  tools st = default [] (ctx_tools ctx).
Proof.
  intros Hin. apply run_states_cases in Hin. cbv zeta in Hin.
  by in_cases Hin.
Qed.

(** X4: the route is fixed by the Router for the whole run: every logged
    state carries the Router's route, which is one of the three labels, and
    metadata["route"] always agrees with it. *)
Theorem run_keeps_route (ctx : Ctx) (query : string) (st : GraphState) :
  st ∈ states (log (run_graph ctx query)) \/
  st ∈ states (log (run_graph_stream ctx query)) ->
  route st = route (router_node (initial_state ctx query)) /\
  route st ∈ ["qa"; "summarize"; "action"] /\
  metadata st !! "route" = Some (route st).
Proof.
  intros Hin. apply run_states_cases in Hin. cbv zeta in Hin.
  pose proof (router_node_valid (initial_state ctx query)) as Hvalid.
  assert (metadata (router_node (initial_state ctx query)) !! "route"
          = Some (route (router_node (initial_state ctx query)))) as Hmeta
    by (rewrite router_node_metadata; apply lookup_insert_eq).
  in_cases Hin; (split; [done |]); (split; done).
Qed.

(** X5: every run starts with the Router and ends with exactly one terminal
    node, Synthesize or Action, never both; the states left before the
    terminal node still have the empty answer. *)
Theorem run_has_one_terminal_node (ctx : Ctx) (query : string) :
  nodes_run (log (run_graph ctx query)) ∈
    [["router"; "retrieve"; "synthesize"]; ["router"; "synthesize"];
     ["router"; "action"]] /\
  nodes_run (log (run_graph_stream ctx query)) ∈
    [["router"; "retrieve"; "synthesize"]; ["router"; "action"]] /\
  Forall (fun st => answer st = "")
    (removelast (states (log (run_graph ctx query)))) /\
  Forall (fun st => answer st = "")
    (removelast (states (log (run_graph_stream ctx query)))).
Proof.
  set (s1 := router_node (initial_state ctx query)).
  pose proof (router_node_valid (initial_state ctx query)) as Hvalid.
  fold s1 in Hvalid.
  destruct (run_graph_of_state ctx query) as [-> _].
  destruct (run_graph_stream_states ctx query) as [-> ->]. fold s1.
  assert (nodes_run (log (run_graph_state ctx query)) ∈
            [["router"; "retrieve"; "synthesize"]; ["router"; "synthesize"];
             ["router"; "action"]] /\
          Forall (fun st => answer st = "")
            (removelast (states (log (run_graph_state ctx query)))))
    as [Hnodes Hanswers].
  { destruct langgraph_installed eqn:Hlg.
    - rewrite run_graph_state_langgraph by done. fold s1.
      destruct (String.eqb_spec (route s1) "qa");
        [split; [in_list | by repeat constructor] |].
      destruct (String.eqb_spec (route s1) "summarize");
        [split; [in_list | by repeat constructor] |].
      destruct (String.eqb_spec (route s1) "action");
        [split; [in_list | by repeat constructor] |].
      repeat (apply elem_of_cons in Hvalid as [Heq | Hvalid]; [congruence |]).
      by apply elem_of_nil in Hvalid.
    - rewrite run_graph_state_fallback by done. fold s1.
      destruct (Py.In_b _ _); (split; [in_list | by repeat constructor]). }
  split; [done |].
  destruct (Py.In_b _ _); (split; [in_list |]);
    (split; [done | by repeat constructor]).
Qed.

(** X6: the metadata a run ends with is {route} after Synthesize and
    {route: action, action_taken: simulated} after Action, in the final
    state of batch mode, in the result the inline pipeline returns and in
    the complete event of the stream: action_taken is there exactly when the
    route is action. *)
Theorem run_final_metadata (ctx : Ctx) (query : string) :
  let r := route (router_node (initial_state ctx query)) in
  let md : gmap string string :=
    if String.eqb r "action"
    then <["action_taken" := "simulated"]> (<["route" := "action"]> ∅)
    else <["route" := r]> ∅ in
  (exists final, outcome (run_graph_state ctx query) = inr final /\
                 metadata final = md) /\
  (langgraph_installed = false ->
   exists res, outcome (run_graph ctx query) = inr res /\
               res_metadata res = md) /\
  ev_metadata <$> of_type "complete" (events (log (run_graph_stream ctx query)))
    = [Some md].
Proof.
  intros r md. subst md r.
  set (s1 := router_node (initial_state ctx query)).
  pose proof (router_node_valid (initial_state ctx query)) as Hvalid.
  fold s1 in Hvalid.
  assert (metadata s1 = <["route" := route s1]> ∅) as Hmeta by done.
  assert (forall st, metadata (action_node st)
                     = <["action_taken" := "simulated"]> (metadata st))
    as Haction by done.
  assert (forall st, metadata (synthesize_node st) = metadata st)
    as Hsynth by done.
  assert (forall st, metadata (retrieve_node st) = metadata st)
    as Hretr by done.
  assert (exists final,
            outcome (run_graph_state ctx query) = inr final /\
            metadata final =
              (if String.eqb (route s1) "action"
               then <["action_taken" := "simulated"]> (<["route" := "action"]> ∅)
               else <["route" := route s1]> ∅)) as Hstate.
  { destruct langgraph_installed eqn:Hlg.
    + rewrite run_graph_state_langgraph by done. fold s1.
      clearbody s1. remember (route s1) as r eqn:Hr. clear Hr.
      repeat (apply elem_of_cons in Hvalid as [-> | Hvalid];
              [cbn [String.eqb Ascii.eqb Bool.eqb outcome snd];
               eexists; split; [reflexivity |];
               by rewrite ?Haction, ?Hsynth, ?Hretr, Hmeta |]).
      by apply elem_of_nil in Hvalid.
    + rewrite run_graph_state_fallback by done. fold s1.
      clearbody s1. remember (route s1) as r eqn:Hr. clear Hr.
      repeat (apply elem_of_cons in Hvalid as [-> | Hvalid];
              [cbn [String.eqb Ascii.eqb Bool.eqb outcome snd];
               first [rewrite In_b_qa | rewrite In_b_summarize
                     | rewrite In_b_action];
               eexists; split; [reflexivity |];
               by rewrite ?Haction, ?Hsynth, ?Hretr, Hmeta |]).
      by apply elem_of_nil in Hvalid. }
  split; [exact Hstate |]. split.
  - intros Hlg. destruct Hstate as (final & Hout & Hmd).
    destruct (run_graph_of_state ctx query) as [_ ->].
    rewrite Hout, Hlg. eexists. split; [reflexivity | exact Hmd].
  - clear Hstate.
    destruct (run_graph_stream_of_type ctx query) as (_ & -> & _).
    fold s1. clearbody s1. remember (route s1) as r eqn:Hr. clear Hr.
    repeat (apply elem_of_cons in Hvalid as [-> | Hvalid];
            [cbn [String.eqb Ascii.eqb Bool.eqb];
             first [rewrite In_b_qa | rewrite In_b_summarize
                   | rewrite In_b_action];
             cbn [fmap list_fmap ev_metadata];
             by rewrite ?Haction, ?Hsynth, ?Hretr, Hmeta |]).
    by apply elem_of_nil in Hvalid.
Qed.

(** Two runs on one query do the same under any two contexts. *)
Lemma run_same_under_ctx (ctx1 ctx2 : Ctx) (query : string) :
  nodes_run (log (run_graph ctx1 query))
    = nodes_run (log (run_graph ctx2 query)) /\
  outcome (run_graph ctx1 query) = outcome (run_graph ctx2 query) /\
  events (log (run_graph_stream ctx1 query))
    = events (log (run_graph_stream ctx2 query)).
Proof.
  assert (route (router_node (initial_state ctx2 query))
          = route (router_node (initial_state ctx1 query))) as Hroute by done.
  destruct (run_graph_of_state ctx1 query) as [-> ->].
  destruct (run_graph_of_state ctx2 query) as [-> ->].
  rewrite !run_graph_stream_events.
  assert (run_graph_state ctx1 query = run_graph_state ctx1 query) as _ by done.
  destruct langgraph_installed eqn:Hlg.
  - rewrite !run_graph_state_langgraph by done. rewrite Hroute.
    repeat destruct (String.eqb _ _); repeat split;
      destruct (Py.In_b _ _); reflexivity.
  - rewrite !run_graph_state_fallback by done. rewrite Hroute.
    destruct (Py.In_b _ _); repeat split.
Qed.

(** X7: nothing of the caller's context reaches a result: two runs on the
    same query under any two contexts (tenant, conversation, tools) run the
    same nodes, return the same batch result and stream the same events. *)
Theorem run_ignores_ctx (ctx1 ctx2 : Ctx) (query : string) :
  nodes_run (log (run_graph ctx1 query))
    = nodes_run (log (run_graph ctx2 query)) /\
  outcome (run_graph ctx1 query) = outcome (run_graph ctx2 query) /\
  events (log (run_graph_stream ctx1 query))
    = events (log (run_graph_stream ctx2 query)).
Proof. apply run_same_under_ctx. Qed.

(** X8: when the Router assigns qa, all three engines agree: the inline
    pipeline, the compiled graph and the stream run router, retrieve,
    synthesize; the final state carries the two citations, metadata
    {route: qa} and the answer to the prompt built from both documents, and
    the inline pipeline returns them. *)
Theorem qa_route_retrieves_then_synthesizes (ctx : Ctx) (query : string) :
  let s1 := router_node (initial_state ctx query) in
  let final := synthesize_node (retrieve_node s1) in
  route s1 = "qa" ->
  run_graph_state ctx query =
    ([Ran "router" s1; Ran "retrieve" (retrieve_node s1);
      Ran "synthesize" final], inr final) /\
  (langgraph_installed = false ->
   outcome (run_graph ctx query) =
     inr {| res_answer := answer final;
            res_sources := source_of <$> mock_docs;
            res_metadata := <["route" := "qa"]> ∅ |}) /\
  nodes_run (log (run_graph_stream ctx query))
    = ["router"; "retrieve"; "synthesize"] /\
  last (states (log (run_graph_stream ctx query))) = Some final /\
  observed_sources (events (log (run_graph_stream ctx query)))
    = source_of <$> mock_docs /\
  retrieved_docs final = mock_docs /\
  sources final = source_of <$> mock_docs /\
  metadata final = <["route" := "qa"]> ∅ /\
  answer final =
    completion llm synthesize_system
      ("Context:
Document 1: AutoBrain is a knowledge assistant that helps teams stay organized and informed.

Document 2: The system uses RAG (Retrieval Augmented Generation) to provide accurate answers.

Question: " +:+ query +:+ "

Provide a helpful answer based on the context above.")
      (kwargs_max_tokens 500).
Proof.
  intros s1 final Hroute.
  assert (run_graph_state ctx query =
            ([Ran "router" s1; Ran "retrieve" (retrieve_node s1);
              Ran "synthesize" final], inr final)) as Hrun.
  { destruct langgraph_installed eqn:Hlg.
    - rewrite run_graph_state_langgraph by done. fold s1. by rewrite Hroute.
    - rewrite run_graph_state_fallback by done. fold s1.
      by rewrite Hroute, In_b_qa. }
  assert (metadata final = <["route" := "qa"]> ∅) as Hmeta.
  { change (metadata final) with (metadata s1). unfold s1.
    rewrite router_node_metadata. fold s1. by rewrite Hroute. }
  destruct (run_graph_of_state ctx query) as [_ Hout].
  rewrite Hout, Hrun.
  pose proof (run_graph_stream_final ctx query) as Hfin.
  destruct (run_graph_stream_states ctx query) as [_ Hnodes].
  destruct (run_graph_stream_of_type ctx query) as (_ & _ & Hsrc).
  cbv zeta in Hfin, Hnodes, Hsrc. fold s1 in Hfin, Hnodes, Hsrc.
  rewrite Hroute, In_b_qa in Hfin, Hnodes, Hsrc.
  unfold observed_sources. rewrite Hnodes, Hfin, Hsrc.
  cbn [outcome snd].
  split; [done |]. split; [intros ->; by rewrite Hmeta |].
  repeat split. exact Hmeta.
Qed.

(** How many events a stream holds. *)
Lemma run_graph_stream_length (ctx : Ctx) (query : string) :
  let evs := events (log (run_graph_stream ctx query)) in
  let r := route (router_node (initial_state ctx query)) in
  exists ans,
    text_of <$> of_type "complete" evs = [ans] /\
    length (of_type "answer" evs) = (length (Py.split ans) + 4) / 5 /\
    length evs =
      (if Py.In_b r ["qa"; "summarize"] then 6 else 4)
      + (length (Py.split ans) + 4) / 5.
Proof.
  intros evs r. subst evs r.
  assert (forall ws, length (answer_chunks ws) = (length ws + 4) / 5) as Hlen.
  { intros ws. unfold answer_chunks, Py.range.
    rewrite !length_fmap, length_seq.
    by replace (length ws - 0 + 5 - 1) with (length ws + 4) by lia. }
  destruct (run_graph_stream_of_type ctx query) as (-> & -> & _).
  rewrite run_graph_stream_events.
  eexists. split; [reflexivity |].
  rewrite !length_app, !length_fmap, Hlen.
  cbn [text_of ev_content].
  split; [done |]. destruct (Py.In_b _ _); cbn [length]; lia.
Qed.

(** X9: the stream holds one answer event for every five words of the
    final answer, rounded up, and beside them 4 events on an action route
    and 6 on a retrieval route. *)
Theorem stream_event_count (ctx : Ctx) (query : string) :
  let evs := events (log (run_graph_stream ctx query)) in
  let r := route (router_node (initial_state ctx query)) in
  exists ans,
    text_of <$> of_type "complete" evs = [ans] /\
    length (of_type "answer" evs) = (length (Py.split ans) + 4) / 5 /\
    length evs =
      (if Py.In_b r ["qa"; "summarize"] then 6 else 4)
      + (length (Py.split ans) + 4) / 5.
Proof. apply run_graph_stream_length. Qed.

(** The run of the compiled graph from any state. *)
Lemma ainvoke_compiled (graph : StateGraph) (st : GraphState) :
  build_graph = Some graph ->
  let s1 := router_node st in
  ainvoke graph st =
    if String.eqb (route s1) "qa" then
      ([Ran "router" s1; Ran "retrieve" (retrieve_node s1);
        Ran "synthesize" (synthesize_node (retrieve_node s1))],
       inr (synthesize_node (retrieve_node s1)))
    else if String.eqb (route s1) "summarize" then
      ([Ran "router" s1; Ran "synthesize" (synthesize_node s1)],
       inr (synthesize_node s1))
    else if String.eqb (route s1) "action" then
      ([Ran "router" s1; Ran "action" (action_node s1)],
       inr (action_node s1))
    else ([Ran "router" s1], inr s1).
Proof.
  unfold build_graph. destruct langgraph_installed; [| discriminate].
  cbn [negb]. intros [= <-]. unfold ainvoke. run_cbn.
  generalize (router_node st). intros s1.
  unfold route_condition.
  destruct (String.eqb (route s1) "qa"); [by run_cbn |].
  destruct (String.eqb (route s1) "summarize"); [by run_cbn |].
  destruct (String.eqb (route s1) "action"); by run_cbn.
Qed.

(** X10: the graph [build_graph] compiles cannot go wrong: from any state
    the condition after the Router never answers END, every name it answers
    is in the path map, and the run ends normally after two or three nodes,
    far below the recursion limit, with a terminal node last. *)
Theorem compiled_graph_never_raises (graph : StateGraph) (st : GraphState) :
  build_graph = Some graph ->
  route_condition (router_node st) <> END /\
  (exists final, outcome (ainvoke graph st) = inr final) /\
  nodes_run (log (ainvoke graph st)) ∈
    [["router"; "retrieve"; "synthesize"]; ["router"; "synthesize"];
     ["router"; "action"]] /\
  length (nodes_run (log (ainvoke graph st))) < recursion_limit.
Proof.
  intros Hgraph. rewrite (ainvoke_compiled graph st Hgraph). cbv zeta.
  pose proof (router_node_valid st) as Hvalid. unfold route_condition.
  remember (route (router_node st)) as r eqn:Hr. clear Hr.
  repeat (apply elem_of_cons in Hvalid as [-> | Hvalid];
          [cbn [String.eqb Ascii.eqb Bool.eqb];
           repeat split; [done | eauto | in_list | cbn; unfold recursion_limit; lia] |]).
  by apply elem_of_nil in Hvalid.
Qed.

(** ** The HTTP layer *)

Lemma prefix_app (p s : string) : String.prefix p (p +:+ s) = true.
Proof.
  induction p as [|c p IH]; [by destruct s |].
  rewrite string_app_cons. simpl. by destruct (ascii_dec c c).
Qed.

Lemma prefix_inv (p s : string) :
  String.prefix p s = true -> exists t, s = p +:+ t.
Proof.
  revert s. induction p as [|c p IH]; intros s Hp; [by exists s |].
  destruct s as [|d s]; [done |]. simpl in Hp.
  destruct (ascii_dec c d) as [-> |]; [| done].
  destruct (IH s Hp) as [t ->]. by exists t.
Qed.

(** X11: [verify_auth] looks at the scheme only: a request is let in
    exactly when its Authorization header starts with "Bearer ", whatever
    follows, and is then always the admin of demo-org; without the header
    it is refused with 401. *)
Theorem verify_auth_checks_scheme_only (header : option string)
    (token uuid4 : string) :
  verify_auth (Some ("Bearer " +:+ token)) uuid4 =
    inr {| auth_user_id := uuid4; auth_org_id := "demo-org";
           auth_email := "demo@autobrain.ai"; auth_role := "admin" |} /\
  verify_auth None uuid4 =
    inl (HTTPException 401 "Invalid authorization header") /\
  ((exists t, header = Some ("Bearer " +:+ t)) \/
   verify_auth header uuid4 =
     inl (HTTPException 401 "Invalid authorization header")).
Proof.
  split; [| split; [done |]].
  - unfold verify_auth. cbn [default from_option id].
    by rewrite prefix_app.
  - unfold verify_auth. destruct header as [h|]; [| by right].
    cbn [default from_option id].
    destruct (String.prefix "Bearer " h) eqn:Hp; [| by right].
    left. apply prefix_inv in Hp as [t ->]. by exists t.
Qed.

(** X12: an ingested document can be read back under the id the response
    names, with the request's tenant, source and url and the status queued;
    ingesting leaves every other document and all conversations as they
    were. *)
Theorem ingest_url_then_get_document (uuid4 now : string)
    (req : IngestRequest) (st : Store) (other : string) :
  let st' := fst (ingest_url uuid4 now req st) in
  let resp := snd (ingest_url uuid4 now req st) in
  get_document (ir_doc_id resp) st' =
    inr {| sd_id := uuid4; sd_org_id := ing_org_id req;
           sd_source := ing_source req; sd_uri := ing_url req;
           sd_status := "queued"; sd_created_at := now |} /\
  (other = uuid4 \/ get_document other st' = get_document other st) /\
  conversations st' = conversations st.
Proof.
  cbv zeta. unfold ingest_url, get_document.
  cbn [fst snd ir_doc_id documents conversations].
  split; [by rewrite lookup_insert_eq |]. split; [| done].
  destruct (decide (other = uuid4)) as [| Hne]; [by left | right].
  by rewrite lookup_insert_ne.
Qed.

(** What [chat_query] does, in one equation: it files the user's message at
    the end of the conversation, which it creates if need be; on the inline
    pipeline it then answers with the batch result and files the answer
    too; under LangGraph [run_graph] raises and so does the handler. *)
Lemma chat_query_eq (uuid4 now_user now_assistant : string)
    (req : ChatRequest) (st : Store) :
  let cid := or_else (req_conversation_id req) uuid4 in
  let old :=
    default {| conv_id := cid; conv_org_id := req_org_id req;
               conv_messages := [] |} (conversations st !! cid) in
  let ctx := {| ctx_org_id := req_org_id req; ctx_conversation_id := cid;
                ctx_tools := Some (req_tools req) |} in
  let user := {| msg_role := "user"; msg_content := req_message req;
                 msg_sources := None; msg_timestamp := now_user |} in
  exists final,
    outcome (run_graph_state ctx (req_message req)) = inr final /\
    outcome (run_graph ctx (req_message req)) =
      (if langgraph_installed then inl (AttributeError "answer")
       else inr {| res_answer := answer final; res_sources := sources final;
                   res_metadata := metadata final |}) /\
    chat_query uuid4 now_user now_assistant req st =
      if langgraph_installed then
        ({| conversations :=
              <[cid := {| conv_id := conv_id old;
                          conv_org_id := conv_org_id old;
                          conv_messages := conv_messages old ++ [user] |}]>
                (conversations st);
            documents := documents st |},
         inl (Unhandled (AttributeError "answer")))
      else
        ({| conversations :=
              <[cid := {| conv_id := conv_id old;
                          conv_org_id := conv_org_id old;
                          conv_messages :=
                            conv_messages old
                            ++ [user;
                                {| msg_role := "assistant";
                                   msg_content := answer final;
                                   msg_sources := Some (sources final);
                                   msg_timestamp := now_assistant |}] |}]>
                (conversations st);
            documents := documents st |},
         inr {| resp_conversation_id := cid;
                resp_answer := answer final;
                resp_sources := sources final;
                resp_metadata := metadata final |}).
Proof.
  intros cid old ctx user.
  destruct (run_graph_outcome ctx (req_message req))
    as (final & Hstate & _ & Hout).
  exists final. split; [exact Hstate |]. split; [exact Hout |].
  unfold chat_query. fold cid. fold ctx. fold user. rewrite Hout. subst old.
  unfold append_message.
  destruct langgraph_installed;
    destruct (conversations st !! cid) as [c|] eqn:Hc;
    rewrite ?Hc, ?lookup_insert_eq;
    cbn [conv_id conv_org_id conv_messages default from_option id];
    rewrite ?lookup_insert_eq, ?insert_insert_eq;
    cbn [conv_id conv_org_id conv_messages];
    rewrite ?insert_insert_eq, <- ?app_assoc; reflexivity.
Qed.

(** X13: [chat_query] files the user's message in the conversation it
    names, or in a fresh one when the request names none or the empty id,
    so that it can be read back after what was there before. On the inline
    pipeline it then never fails: it answers with what [run_graph] returns
    for the message and files the assistant's answer with its citations
    after the user's message. Under LangGraph it fails on every request
    with the [AttributeError] of [run_graph], the user's message stored. *)
Theorem chat_query_then_get_conversation (uuid4 now_user now_assistant : string)
    (req : ChatRequest) (st : Store) :
  let out := chat_query uuid4 now_user now_assistant req st in
  let cid := or_else (req_conversation_id req) uuid4 in
  let before :=
    match get_conversation cid st with inr c => conv_messages c | inl _ => [] end in
  let user := {| msg_role := "user"; msg_content := req_message req;
                 msg_sources := None; msg_timestamp := now_user |} in
  exists conv,
    get_conversation cid (fst out) = inr conv /\
    if langgraph_installed then
      snd out = inl (Unhandled (AttributeError "answer")) /\
      conv_messages conv = before ++ [user]
    else
      exists resp result,
        snd out = inr resp /\
        resp_conversation_id resp = cid /\
        outcome (run_graph {| ctx_org_id := req_org_id req;
                              ctx_conversation_id := cid;
                              ctx_tools := Some (req_tools req) |}
                   (req_message req)) = inr result /\
        resp_answer resp = res_answer result /\
        resp_sources resp = res_sources result /\
        resp_metadata resp = res_metadata result /\
        conv_messages conv =
          before
          ++ [user;
              {| msg_role := "assistant"; msg_content := resp_answer resp;
                 msg_sources := Some (resp_sources resp);
                 msg_timestamp := now_assistant |}].
Proof.
  intros out cid before user. subst out before.
  destruct (chat_query_eq uuid4 now_user now_assistant req st)
    as (final & _ & Hout & ->).
  fold cid. fold cid in Hout. fold user. unfold get_conversation.
  destruct langgraph_installed; cbn [fst snd conversations];
    rewrite lookup_insert_eq; eexists; (split; [reflexivity |]);
    cbn [conv_messages].
  - split; [reflexivity |].
    by destruct (conversations st !! cid) as [c|] eqn:Hc.
  - eexists. eexists. split; [reflexivity |].
    cbn [resp_conversation_id resp_answer resp_sources resp_metadata].
    split; [reflexivity |]. split; [exact Hout |].
    cbn [res_answer res_sources res_metadata].
    do 3 (split; [reflexivity |]).
    by destruct (conversations st !! cid) as [c|] eqn:Hc.
Qed.

(** X14: [chat_query] checks no tenant: a request naming an existing
    conversation appends to it whatever org_id it carries (the user's
    message and the answer on the inline pipeline, the user's message alone
    under LangGraph), and the conversation keeps the id and the org_id it
    was created with. *)
Theorem chat_query_keeps_owner (uuid4 now_user now_assistant : string)
    (req : ChatRequest) (st : Store) (c : Conversation) :
  let cid := or_else (req_conversation_id req) uuid4 in
  conversations st !! cid = Some c ->
  exists c',
    conversations (fst (chat_query uuid4 now_user now_assistant req st)) !! cid
      = Some c' /\
    conv_org_id c' = conv_org_id c /\
    conv_id c' = conv_id c /\
    take (length (conv_messages c)) (conv_messages c') = conv_messages c /\
    length (conv_messages c') =
      length (conv_messages c) + (if langgraph_installed then 1 else 2).
Proof.
  intros cid Hc.
  destruct (chat_query_eq uuid4 now_user now_assistant req st)
    as (final & _ & _ & ->).
  fold cid. rewrite Hc.
  destruct langgraph_installed;
    cbn [fst conversations default from_option id];
    rewrite lookup_insert_eq; eexists; (split; [reflexivity |]);
    cbn [conv_org_id conv_id conv_messages];
    (repeat split; [by rewrite take_app_length
                   | rewrite length_app; cbn [length]; lia]).
Qed.

(** X15: [chat_query] writes to one conversation only: every other
    conversation and every document is as before. *)
Theorem chat_query_touches_one_conversation
    (uuid4 now_user now_assistant : string) (req : ChatRequest) (st : Store)
    (other : string) :
  let st' := fst (chat_query uuid4 now_user now_assistant req st) in
  (other = or_else (req_conversation_id req) uuid4 \/
   get_conversation other st' = get_conversation other st) /\
  documents st' = documents st.
Proof.
  cbv zeta.
  destruct (chat_query_eq uuid4 now_user now_assistant req st)
    as (final & _ & _ & ->).
  split; [| by destruct langgraph_installed].
  destruct (decide (other = or_else (req_conversation_id req) uuid4))
    as [| Hne]; [by left | right].
  unfold get_conversation.
  destruct langgraph_installed; cbn [fst conversations];
    by rewrite lookup_insert_ne.
Qed.




Lemma serve_all_documents (cs : list ApiCall) (st : Store) (id : string) :
  is_Some (documents (serve_all cs st) !! id) <->
  id ∈ ingested_ids cs \/ is_Some (documents st !! id).
Proof.
  unfold serve_all. revert st.
  induction cs as [|c cs IH]; intros st.
  - cbn. split; [by right | intros [Hin | H]; [by apply elem_of_nil in Hin | done]].
  - cbn [foldl]. rewrite IH. clear IH.
    destruct c as [uuid4 now req | uuid4 n1 n2 req].
    + cbn [serve ingest_url fst documents ingested_ids omap list_omap].
      fold (ingested_ids cs). rewrite elem_of_cons.
      destruct (decide (id = uuid4)) as [-> | Hne].
      * rewrite lookup_insert_eq. split; [by intros _; left; left |].
        intros _. right. by eexists.
      * rewrite lookup_insert_ne by done. split; [| intros [[|]|]]; tauto.
    + cbn [serve ingested_ids omap list_omap]. fold (ingested_ids cs).
      destruct (chat_query_eq uuid4 n1 n2 req st) as (final & _ & _ & ->).
      by destruct langgraph_installed.
Qed.

(** X17: after any sequence of requests from start-up, [get_document]
    finds a document exactly under the ids [ingest_url] handed out, and
    answers 404 for every other id. *)
Theorem get_document_found_iff_ingested (cs : list ApiCall) (id : string) :
  ((exists d, get_document id (serve_all cs empty_store) = inr d) <->
   id ∈ ingested_ids cs) /\
  (id ∈ ingested_ids cs \/
   get_document id (serve_all cs empty_store)
     = inl (HTTPException 404 "Document not found")).
Proof.
  pose proof (serve_all_documents cs empty_store id) as Hdocs.
  cbn [empty_store documents] in Hdocs. rewrite lookup_empty in Hdocs.
  unfold get_document.
  destruct (documents (serve_all cs empty_store) !! id) as [d|] eqn:Hd.
  - assert (id ∈ ingested_ids cs) as Hin.
    { destruct Hdocs as [Hdocs _].
      destruct Hdocs as [|[? ?]]; [by eexists | done | done]. }
    split; [| by left]. split; [done | by exists d].
  - split; [| by right]. split; [by intros [? ?] |].
    intros Hin. destruct Hdocs as [_ Hdocs].
    destruct Hdocs as [? ?]; [by left | done].
Qed.

Lemma chat_stream_eq (uuid4 : string) (req : ChatRequest) :
  chat_stream uuid4 req =
    (sse_frame ∘ ChunkPayload
       <$> events (log (run_graph_stream
             {| ctx_org_id := req_org_id req;
                ctx_conversation_id := or_else (req_conversation_id req) uuid4;
                ctx_tools := Some (req_tools req) |} (req_message req))))
    ++ [sse_frame DonePayload].
Proof. unfold chat_stream. by rewrite run_graph_stream_log. Qed.

(** X18: the frames of [chat_stream] are the events of the orchestrator's
    stream, one frame each and in order, followed by the closing frame,
    which is always sent: beside one frame for every answer chunk that
    makes 5 frames on an action route and 7 on a retrieval route. *)
Theorem chat_stream_frames (uuid4 : string) (req : ChatRequest) :
  let ctx := {| ctx_org_id := req_org_id req;
                ctx_conversation_id := or_else (req_conversation_id req) uuid4;
                ctx_tools := Some (req_tools req) |} in
  let evs := events (log (run_graph_stream ctx (req_message req))) in
  let r := route (router_node (initial_state ctx (req_message req))) in
  chat_stream uuid4 req =
    (sse_frame ∘ ChunkPayload <$> evs) ++ [sse_frame DonePayload] /\
  last (chat_stream uuid4 req) = Some (sse_frame DonePayload) /\
  exists ans,
    text_of <$> of_type "complete" evs = [ans] /\
    length (chat_stream uuid4 req) =
      (if Py.In_b r ["qa"; "summarize"] then 7 else 5)
      + (length (Py.split ans) + 4) / 5.
Proof.
  intros ctx evs r.
  assert (chat_stream uuid4 req =
            (sse_frame ∘ ChunkPayload <$> evs) ++ [sse_frame DonePayload])
    as Heq by apply chat_stream_eq.
  rewrite Heq. split; [done |]. split; [apply last_snoc |].
  destruct (run_graph_stream_length ctx (req_message req))
    as (ans & Hans & _ & Hlen).
  exists ans. split; [exact Hans |].
  rewrite length_app, length_fmap. fold evs in Hlen. fold r in Hlen.
  rewrite Hlen. cbn [length]. destruct (Py.In_b _ _); lia.
Qed.

(** X19: neither tenant nor conversation nor history reaches the model:
    two chat requests with the same message get the same answer, citations
    and metadata from [chat_query] (or fail alike), whatever the store
    holds, and the same frames from [chat_stream]. *)
Theorem chat_ignores_tenant_and_history
    (u1 u2 a1 a2 b1 b2 : string) (req1 req2 : ChatRequest) (st1 st2 : Store) :
  req_message req1 = req_message req2 ->
  response_view (snd (chat_query u1 a1 b1 req1 st1))
    = response_view (snd (chat_query u2 a2 b2 req2 st2)) /\
  chat_stream u1 req1 = chat_stream u2 req2.
Proof.
  intros Hmsg. split.
  - destruct (chat_query_eq u1 a1 b1 req1 st1) as (f1 & _ & Hr1 & ->).
    destruct (chat_query_eq u2 a2 b2 req2 st2) as (f2 & _ & Hr2 & ->).
    rewrite Hmsg in Hr1.
    destruct (run_same_under_ctx
                {| ctx_org_id := req_org_id req1;
                   ctx_conversation_id := or_else (req_conversation_id req1) u1;
                   ctx_tools := Some (req_tools req1) |}
                {| ctx_org_id := req_org_id req2;
                   ctx_conversation_id := or_else (req_conversation_id req2) u2;
                   ctx_tools := Some (req_tools req2) |}
                (req_message req2)) as (_ & Hsame & _).
    rewrite Hr1, Hr2 in Hsame.
    destruct langgraph_installed; [done |].
    injection Hsame as Ha Hs Hm.
    cbn [snd response_view resp_answer resp_sources resp_metadata].
    by rewrite Ha, Hs, Hm.
  - rewrite !chat_stream_eq, Hmsg. f_equal. f_equal.
    apply run_same_under_ctx.
Qed.

End Orchestrator.

(** * Concrete runs *)

(** ** Scenarios of the specification *)

(** Scenario A: a qa route retrieves, then synthesizes; two citations. *)
Example scenario_qa :
  let run := run_graph None (stub_openai "qa" "AutoBrain is a knowledge assistant.")
               down_anthropic false demo_ctx "What is AutoBrain?" in
  nodes_run (log run) = ["router"; "retrieve"; "synthesize"] /\
  (fun r => src_id <$> res_sources r) <$> returned run = Some ["doc1"; "doc2"] /\
  (fun r => res_metadata r !! "route") <$> returned run = Some (Some "qa").
Proof. repeat split. Qed.

(** Scenario C: an unparseable classification is taken as qa. *)
Example scenario_garbage_label :
  route (router_node None (stub_openai "unknown-category-xyz" "ok")
           down_anthropic (initial_state demo_ctx "What is AutoBrain?")) = "qa".
Proof. reflexivity. Qed.

(** ** Instances *)

(** C4 on a twelve-word answer. *)
Lemma stream_answer_chunks_witness :
  let run := run_graph_stream None (stub_openai "qa" "a b c d e f g h i j k l")
               down_anthropic demo_ctx "What is AutoBrain?" in
  let contents := text_of <$> of_type "answer" (events (log run)) in
  word_count <$> contents = [5; 5; 2] /\
  Py.join " " contents = "a b c d e f g h i j k l".
Proof.
  set (o := stub_openai "qa" "a b c d e f g h i j k l").
  set (st := synthesize_node None o down_anthropic
               (retrieve_node (router_node None o down_anthropic
                  (initial_state demo_ctx "What is AutoBrain?")))).
  cbv zeta.
  destruct (stream_answer_chunks None o down_anthropic demo_ctx
              "What is AutoBrain?" st)
    as (_ & _ & _ & _ & Hround & Htwelve); [vm_compute; reflexivity |].
  split; [apply Htwelve | apply Hround]; vm_compute; reflexivity.
Defined.

(** C10 on an answer of three spaces. *)
Lemma stream_blank_answer_witness :
  let run := run_graph_stream None (stub_openai "action" "   ")
               down_anthropic demo_ctx "send an email to the team" in
  of_type "answer" (events (log run)) = [] /\
  text_of <$> of_type "complete" (events (log run)) = ["   "].
Proof.
  set (o := stub_openai "action" "   ").
  set (st := action_node None o down_anthropic
               (router_node None o down_anthropic
                  (initial_state demo_ctx "send an email to the team"))).
  cbv zeta.
  destruct (stream_blank_answer None o down_anthropic demo_ctx
              "send an email to the team" st) as [Hnone Hone];
    [vm_compute; reflexivity | vm_compute; reflexivity |].
  split; [exact Hnone |]. rewrite Hone. vm_compute; reflexivity.
Defined.

(** C6 on the state the Retrieve node leaves in a qa run. *)
Lemma docs_and_sources_together_witness :
  docs_sources_inv
    (retrieve_node (router_node None (stub_openai "qa" "ok") down_anthropic
       (initial_state demo_ctx "What is AutoBrain?"))).
Proof.
  apply (docs_and_sources_together None (stub_openai "qa" "ok")
           down_anthropic true demo_ctx "What is AutoBrain?").
  right. left. apply list_elem_of_lookup. exists 1. vm_compute; reflexivity.
Defined.

(** C7, scenario B: an action query on the inline pipeline. *)
Lemma action_route_witness :
  let run := run_graph None (stub_openai "action" "Email sent to the team.")
               down_anthropic false demo_ctx "send an email to the team" in
  nodes_run (log run) = ["router"; "action"] /\
  res_sources <$> returned run = Some [] /\
  (fun r => res_metadata r !! "action_taken") <$> returned run
    = Some (Some "simulated") /\
  res_answer <$> returned run = Some "Email sent to the team.".
Proof.
  cbv zeta.
  destruct (action_route_runs_action_only None
              (stub_openai "action" "Email sent to the team.")
              down_anthropic false demo_ctx "send an email to the team")
    as (_ & Hnodes & _ & Hout & _ & _ & _ & _ & _ & Hmeta & Hans);
    [vm_compute; reflexivity |].
  rewrite Hnodes. unfold returned. rewrite Hout by reflexivity.
  cbn [fmap option_fmap option_map res_sources res_metadata res_answer].
  rewrite Hmeta, Hans. repeat split.
Defined.

(** C8 with both vendors down and Anthropic selected. *)
Lemma provider_failure_witness :
  let batch := run_graph (Some "anthropic") down_openai down_anthropic false
                 demo_ctx "What is AutoBrain?" in
  let stream := run_graph_stream (Some "anthropic") down_openai down_anthropic
                  demo_ctx "What is AutoBrain?" in
  (exists r, outcome batch = inr r /\
             res_answer r = "Error calling Anthropic: Connection error.") /\
  text_of <$> of_type "complete" (events (log stream)) =
    ["Error calling Anthropic: Connection error."].
Proof.
  cbv zeta.
  destruct (provider_failure_degrades_to_text (Some "anthropic") down_openai
              down_anthropic false)
    as (_ & _ & _ & _ & _ & _ & _ & _ & _ & Hdown).
  destruct (Hdown "Connection error." (fun _ => eq_refl) (fun _ => eq_refl)
              demo_ctx "What is AutoBrain?") as (_ & Hbatch & Hstream).
  split; [exact (Hbatch eq_refl) | exact Hstream].
Defined.

(** ** Where the code departs from the specification *)

(** C4 as first stated fails: the chunks do not always give the answer
    back, two spaces between two words come back as one. *)
Lemma stream_roundtrip_counterexample :
  let run := run_graph_stream None (stub_openai "qa" "a  b") down_anthropic
               demo_ctx "What is AutoBrain?" in
  let evs := events (log run) in
  (answer <$> last (states (log run))) = Some "a  b" /\
  text_of <$> of_type "complete" evs = ["a  b"] /\
  text_of <$> of_type "answer" evs = ["a b"] /\
  Py.join " " (text_of <$> of_type "answer" evs) <> "a  b".
Proof. repeat split. vm_compute. discriminate. Qed.

(** C1 at a summarize query with LangGraph installed: the compiled graph
    sends the Router's summarize straight to Synthesize, so Retrieve never
    runs and the final state has neither documents nor citations, while the
    inline pipeline and the stream run Retrieve on the same input. *)
Theorem summarize_skips_retrieve_under_langgraph :
  let o := stub_openai "summarize" "A summary." in
  let q := "Summarize the onboarding guide" in
  let graph_run := run_graph_state None o down_anthropic true demo_ctx q in
  let inline_run := run_graph_state None o down_anthropic false demo_ctx q in
  let stream := run_graph_stream None o down_anthropic demo_ctx q in
  route (router_node None o down_anthropic (initial_state demo_ctx q))
    = "summarize" /\
  nodes_run (log graph_run) = ["router"; "synthesize"] /\
  retrieved_docs <$> returned graph_run = Some [] /\
  sources <$> returned graph_run = Some [] /\
  nodes_run (log inline_run) = ["router"; "retrieve"; "synthesize"] /\
  nodes_run (log stream) = ["router"; "retrieve"; "synthesize"] /\
  retrieved_docs <$> returned inline_run = Some mock_docs.
Proof. repeat split. Qed.

(** C2 with LangGraph installed, on every input and route: batch mode runs
    its nodes and then raises [AttributeError], because it reads
    [state.answer] off the dict [graph.ainvoke] returned, so it returns no
    {answer, sources, metadata} at all, while the stream on the same input
    ends normally with one complete event, from which a consumer assembles
    a full result. *)
Theorem batch_stream_differ_under_langgraph (LLM_PROVIDER : option string)
    (openai_create : OpenAIRequest -> attempt)
    (anthropic_create : AnthropicRequest -> attempt)
    (ctx : Ctx) (query : string) :
  let batch :=
    run_graph LLM_PROVIDER openai_create anthropic_create true ctx query in
  let stream :=
    run_graph_stream LLM_PROVIDER openai_create anthropic_create ctx query in
  outcome batch = inl (AttributeError "answer") /\
  returned batch = None /\
  (exists final,
     last (states (log batch)) = Some final /\
     (exists st,
        final = synthesize_node LLM_PROVIDER openai_create anthropic_create st
        \/ final = action_node LLM_PROVIDER openai_create anthropic_create st)) /\
  outcome stream = inr tt /\
  exists r, stream_view (events (log stream)) = Some r.
Proof.
  cbv zeta.
  destruct (run_graph_outcome LLM_PROVIDER openai_create anthropic_create true
              ctx query) as (final & Hstate & Hterm & Hout).
  split; [exact Hout |]. split; [unfold returned; by rewrite Hout |].
  split.
  - exists final. split; [| exact Hterm].
    destruct (run_graph_of_state LLM_PROVIDER openai_create anthropic_create
                true ctx query) as [-> _].
    revert Hstate.
    rewrite run_graph_state_langgraph by done.
    repeat destruct (String.eqb _ _); by intros [= <-].
  - split; [by rewrite run_graph_stream_log |].
    unfold stream_view.
    destruct (run_graph_stream_of_type LLM_PROVIDER openai_create
                anthropic_create ctx query) as (_ & -> & _).
    by eexists.
Qed.

(** * Further concrete runs *)

(** X20: off the summarize route the two branches of [run_graph] do the
    same work: with and without LangGraph the same nodes run and leave the
    same states, the last of which holds the same values. *)
Theorem run_graph_branches_agree (LLM_PROVIDER : option string)
    (openai_create : OpenAIRequest -> attempt)
    (anthropic_create : AnthropicRequest -> attempt)
    (ctx : Ctx) (query : string) :
  route (router_node LLM_PROVIDER openai_create anthropic_create
           (initial_state ctx query)) <> "summarize" ->
  run_graph_state LLM_PROVIDER openai_create anthropic_create true ctx query =
  run_graph_state LLM_PROVIDER openai_create anthropic_create false ctx query
  /\
  log (run_graph LLM_PROVIDER openai_create anthropic_create true ctx query) =
  log (run_graph LLM_PROVIDER openai_create anthropic_create false ctx query).
Proof.
  intros Hroute.
  assert (run_graph_state LLM_PROVIDER openai_create anthropic_create true
            ctx query =
          run_graph_state LLM_PROVIDER openai_create anthropic_create false
            ctx query) as Hsame.
  { rewrite run_graph_state_langgraph, run_graph_state_fallback by done.
    pose proof (router_node_valid LLM_PROVIDER openai_create anthropic_create
                  (initial_state ctx query)) as Hvalid.
    revert Hroute Hvalid.
    generalize (router_node LLM_PROVIDER openai_create anthropic_create
                  (initial_state ctx query)).
    intros s1 Hroute Hvalid. cbv zeta.
    remember (route s1) as r eqn:Hr. clear Hr.
    repeat (apply elem_of_cons in Hvalid as [-> | Hvalid]; [done |]).
    by apply elem_of_nil in Hvalid. }
  split; [exact Hsame |].
  destruct (run_graph_of_state LLM_PROVIDER openai_create anthropic_create
              true ctx query) as [-> _].
  destruct (run_graph_of_state LLM_PROVIDER openai_create anthropic_create
              false ctx query) as [-> _].
  by rewrite Hsame.
Qed.

Lemma run_graph_branches_agree_witness :
  run_graph_state None (stub_openai "qa" "ok") down_anthropic true demo_ctx
    "What is AutoBrain?" =
  run_graph_state None (stub_openai "qa" "ok") down_anthropic false demo_ctx
    "What is AutoBrain?".
Proof.
  apply run_graph_branches_agree. vm_compute. discriminate.
Defined.

(** X1 on the reply "  Summarize" followed by a newline. *)
Lemma router_node_accepts_padded_label_witness :
  route (router_node None (stub_openai ("  Summarize" +:+ nl) "ok")
           down_anthropic (initial_state demo_ctx "Sum it up"))
    = "summarize".
Proof.
  apply (router_node_accepts_padded_label None
           (stub_openai ("  Summarize" +:+ nl) "ok") down_anthropic
           (initial_state demo_ctx "Sum it up") "  " "Summarize" nl);
    [reflexivity | reflexivity | reflexivity | reflexivity |].
  vm_compute. apply list_elem_of_further, list_elem_of_here.
Defined.

(** C5 on three replies: a label in another case with whitespace around
    it, a text that is no label, and the empty text. *)
Lemma router_node_defaults_to_qa_witness :
  let route_for reply :=
    route (router_node None (stub_openai reply "ok") down_anthropic
             (initial_state demo_ctx "What is AutoBrain?")) in
  route_for (" ACTION " +:+ nl) = "action" /\
  route_for "unknown-category-xyz" = "qa" /\
  route_for "" = "qa".
Proof.
  cbv zeta. split; [| split].
  - destruct (router_node_defaults_to_qa None
                (stub_openai (" ACTION " +:+ nl) "ok") down_anthropic
                (initial_state demo_ctx "What is AutoBrain?"))
      as (_ & _ & _ & Hreads & _).
    apply Hreads.
    + apply list_elem_of_further, list_elem_of_further, list_elem_of_here.
    + exists " ", "ACTION", (" " +:+ nl).
      split; [reflexivity |]. split; [reflexivity |].
      split; [reflexivity |].
      vm_compute. repeat split; auto.
  - destruct (router_node_defaults_to_qa None
                (stub_openai "unknown-category-xyz" "ok") down_anthropic
                (initial_state demo_ctx "What is AutoBrain?"))
      as (-> & _).
    reflexivity.
  - destruct (router_node_defaults_to_qa None (stub_openai "" "ok")
                down_anthropic (initial_state demo_ctx "What is AutoBrain?"))
      as (-> & _).
    reflexivity.
Defined.

(** X2 with OpenAI selected and down, on the inline pipeline. *)
Lemma provider_down_runs_qa_witness :
  let run := run_graph None down_openai down_anthropic false demo_ctx
               "send an email to the team" in
  nodes_run (log run) = ["router"; "retrieve"; "synthesize"] /\
  res_answer <$> returned run
    = Some "Error calling OpenAI: Connection error.".
Proof.
  cbv zeta.
  destruct (provider_down_runs_qa None down_openai down_anthropic false
              "Connection error." demo_ctx "send an email to the team")
    as (_ & Hnodes & _ & Hout & _); [done | done |].
  split; [exact Hnodes |]. unfold returned. by rewrite Hout.
Defined.

(** X3 and X4 on the final state of a qa run under another tenant. *)
Lemma run_keeps_caller_fields_witness :
  let ctx := {| ctx_org_id := "acme"; ctx_conversation_id := "c-9";
                ctx_tools := None |} in
  let o := stub_openai "qa" "ok" in
  let q := "What is AutoBrain?" in
  let st := synthesize_node None o down_anthropic
              (retrieve_node (router_node None o down_anthropic
                                (initial_state ctx q))) in
  org_id st = "acme" /\ conversation_id st = "c-9" /\ query st = q /\
  tools st = [].
Proof.
  cbv zeta.
  apply (run_keeps_caller_fields None (stub_openai "qa" "ok") down_anthropic
           false {| ctx_org_id := "acme"; ctx_conversation_id := "c-9";
                    ctx_tools := None |} "What is AutoBrain?").
  left. apply list_elem_of_lookup. exists 2. vm_compute; reflexivity.
Defined.

Lemma run_keeps_route_witness :
  let o := stub_openai "action" "Done." in
  let q := "send an email to the team" in
  let st := action_node None o down_anthropic
              (router_node None o down_anthropic (initial_state demo_ctx q)) in
  route st = "action" /\ metadata st !! "route" = Some "action".
Proof.
  cbv zeta.
  destruct (run_keeps_route None (stub_openai "action" "Done.") down_anthropic
              true demo_ctx "send an email to the team"
              (action_node None (stub_openai "action" "Done.") down_anthropic
                 (router_node None (stub_openai "action" "Done.")
                    down_anthropic
                    (initial_state demo_ctx "send an email to the team"))))
    as (Hroute & _ & Hmeta).
  { right. apply list_elem_of_lookup. exists 1. vm_compute; reflexivity. }
  split; [by rewrite Hroute | by rewrite Hmeta].
Defined.

(** X8, scenario A on the inline pipeline. *)
Lemma qa_route_witness :
  let run := run_graph None (stub_openai "qa" "AutoBrain is an assistant.")
               down_anthropic false demo_ctx "What is AutoBrain?" in
  (fun r => src_id <$> res_sources r) <$> returned run
    = Some ["doc1"; "doc2"] /\
  res_answer <$> returned run = Some "AutoBrain is an assistant.".
Proof.
  cbv zeta.
  destruct (qa_route_retrieves_then_synthesizes None
              (stub_openai "qa" "AutoBrain is an assistant.")
              down_anthropic false demo_ctx "What is AutoBrain?")
    as (_ & Hout & _); [vm_compute; reflexivity |].
  unfold returned. rewrite Hout by reflexivity. split; vm_compute; reflexivity.
Defined.

(** X10 on the graph compiled for a stubbed provider, from a state that
    already carries an answer. *)
Lemma compiled_graph_never_raises_witness :
  exists graph,
    build_graph None (stub_openai "summarize" "ok") down_anthropic true
      = Some graph /\
    length (nodes_run (log (ainvoke graph
              (set_answer "stale" (initial_state demo_ctx "Sum it up")))))
      < recursion_limit.
Proof.
  eexists. split; [reflexivity |].
  eapply (compiled_graph_never_raises None (stub_openai "summarize" "ok")
            down_anthropic true).
  reflexivity.
Defined.

(** X14: a request of the tenant other appends to a conversation of the
    tenant acme, which stays acme's. *)
Lemma chat_query_keeps_owner_witness :
  let req := {| req_org_id := "other"; req_conversation_id := Some "c-1";
                req_message := "What is AutoBrain?"; req_tools := [] |} in
  let st' := fst (chat_query None (stub_openai "qa" "ok") down_anthropic false
                    "u-1" "t1" "t2" req demo_store) in
  exists c', conversations st' !! "c-1" = Some c' /\
             conv_org_id c' = "acme" /\ length (conv_messages c') = 2.
Proof.
  cbv zeta.
  destruct (chat_query_keeps_owner None (stub_openai "qa" "ok")
              down_anthropic false "u-1" "t1" "t2"
              {| req_org_id := "other"; req_conversation_id := Some "c-1";
                 req_message := "What is AutoBrain?"; req_tools := [] |}
              demo_store
              {| conv_id := "c-1"; conv_org_id := "acme";
                 conv_messages := [] |})
    as (c' & Hc' & Horg & _ & _ & Hlen); [vm_compute; reflexivity |].
  exists c'. split; [exact Hc' |]. split; [exact Horg | exact Hlen].
Defined.

(** X19: the same message from two tenants, one in a new conversation and
    one in an old one. *)
Lemma chat_ignores_tenant_and_history_witness :
  let req1 := {| req_org_id := "acme"; req_conversation_id := None;
                 req_message := "What is AutoBrain?"; req_tools := [] |} in
  let req2 := {| req_org_id := "other"; req_conversation_id := Some "c-1";
                 req_message := "What is AutoBrain?";
                 req_tools := ["search"] |} in
  response_view
    (snd (chat_query None (echo_openai "qa") down_anthropic false
            "u-1" "t1" "t3" req1 empty_store)) =
  response_view
    (snd (chat_query None (echo_openai "qa") down_anthropic false
            "u-2" "t2" "t4" req2 demo_store)) /\
  chat_stream None (echo_openai "qa") down_anthropic stub_dumps "u-1" req1 =
  chat_stream None (echo_openai "qa") down_anthropic stub_dumps "u-2" req2.
Proof.
  cbv zeta.
  apply (chat_ignores_tenant_and_history None (echo_openai "qa")
           down_anthropic false stub_dumps "u-1" "u-2" "t1" "t2" "t3" "t4"
           {| req_org_id := "acme"; req_conversation_id := None;
              req_message := "What is AutoBrain?"; req_tools := [] |}
           {| req_org_id := "other"; req_conversation_id := Some "c-1";
              req_message := "What is AutoBrain?"; req_tools := ["search"] |}
           empty_store demo_store).
  reflexivity.
Defined.
